(** * toscaparser.tosca_template: import resolution and custom-type merge

    A shallow embedding of [src/toscaparser/tosca_template.py] (class
    [ToscaTemplate]) and the properties its specification states about it.

    Conventions of the embedding.
    - A parsed YAML document is a [value]: null (Python's [None]), a
      string, a sequence of strings (the import references) or a mapping
      with string keys.
    - A Python [dict] is an association list in insertion order (the order
      [for name in d] visits the keys); text is ASCII.
    - A method of [ToscaTemplate] is a computation [M A]: it reads and may
      write the object [self], may raise, and records every call it makes
      to the world outside the module (filesystem, URL utilities, YAML
      loader, topology and graph builders) in the order it makes them.
    - [os.path] is POSIX. *)

From Stdlib Require Import List String Ascii Bool Arith Lia.
Import ListNotations.
Open Scope string_scope.
Open Scope list_scope.
Set Implicit Arguments.
Set Warnings "-register-all".

(** ** YAML values and Python dictionaries *)

Inductive value : Type :=
| VNull
| VStr (s : string)
| VSeq (l : list string)
| VMap (m : list (string * value)).

Definition dict : Type := list (string * value).

Module PyDict.

Definition keys (d : dict) : list string := map fst d.

(** [k in d] *)
Definition contains (k : string) (d : dict) : bool :=
  existsb (String.eqb k) (keys d).

Fixpoint lookup (k : string) (d : dict) : option value :=
  match d with
  | [] => None
  | (k', v) :: d' => if String.eqb k k' then Some v else lookup k d'
  end.

(** [d.get(k)]: the value, or [None] when the key is missing. *)
Definition get (k : string) (d : dict) : value :=
  match lookup k d with
  | Some v => v
  | None => VNull
  end.

(** [d[k] = v]: an existing key keeps its place, a new one goes last. *)
Fixpoint setitem (d : dict) (k : string) (v : value) : dict :=
  match d with
  | [] => [(k, v)]
  | (k', v') :: d' =>
      if String.eqb k k' then (k', v) :: d' else (k', v') :: setitem d' k v
  end.

(** [d.update(other)] for a mapping [other]:
    [for k in other: d[k] = other[k]]. *)
Definition update (d other : dict) : dict :=
  fold_left (fun acc k => setitem acc k (get k other)) (keys other) d.

Definition wf (d : dict) : Prop := NoDup (keys d).

End PyDict.

(** Python truth value of a YAML value ([if v:]). *)
Definition truthy (v : value) : bool :=
  match v with
  | VNull => false
  | VStr s => negb (String.eqb s "")
  | VSeq l => match l with [] => false | _ => true end
  | VMap m => match m with [] => false | _ => true end
  end.

(** [a or b] *)
Definition py_or (a b : value) : value := if truthy a then a else b.

(** The items [for x in v] visits: the elements of a sequence, the
    characters of a string, the keys of a mapping.  Iterating [None] is a
    [TypeError]; the callers below only iterate truthy values. *)
Definition chars (s : string) : list string :=
  map (fun c => String c "") (list_ascii_of_string s).

Definition iter (v : value) : list string :=
  match v with
  | VNull => []
  | VStr s => chars s
  | VSeq l => l
  | VMap m => PyDict.keys m
  end.

(** ** Strings: [str.rstrip] and the parts of [posixpath] in use *)

Fixpoint rstrip_by (f : ascii -> bool) (s : string) : string :=
  match s with
  | "" => ""
  | String c r =>
      match rstrip_by f r with
      | "" => if f c then "" else String c ""
      | r' => String c r'
      end
  end.

(** ASCII characters for which [str.isspace] holds: TAB, LF, VT, FF, CR,
    FS, GS, RS, US and the space. *)
Definition isspace (c : ascii) : bool :=
  let n := nat_of_ascii c in
  (Nat.leb 9 n && Nat.leb n 13) || (Nat.leb 28 n && Nat.leb n 32).

(** [s.rstrip()] *)
Definition rstrip (s : string) : string := rstrip_by isspace s.


Definition is_sep (c : ascii) : bool := Ascii.eqb c "/"%char.

(** [os.path.isabs(p)]: [p.startswith('/')] *)
Definition os_path_isabs (p : string) : bool :=
  match p with
  | String c _ => is_sep c
  | "" => false
  end.

Fixpoint ends_with_sep (p : string) : bool :=
  match p with
  | "" => false
  | String c "" => is_sep c
  | String _ r => ends_with_sep r
  end.

(** [os.path.join(a, b)] *)
Definition os_path_join (a b : string) : string :=
  if os_path_isabs b then b
  else if String.eqb a "" || ends_with_sep a then String.append a b
  else String.append a (String "/" b).

Fixpoint has_sep (p : string) : bool :=
  match p with
  | "" => false
  | String c r => is_sep c || has_sep r
  end.

(** [p[:p.rfind('/') + 1]] *)
Fixpoint upto_last_sep (p : string) : string :=
  match p with
  | "" => ""
  | String c r =>
      if has_sep r then String c (upto_last_sep r)
      else if is_sep c then String c "" else ""
  end.

Fixpoint all_sep (p : string) : bool :=
  match p with
  | "" => true
  | String c r => is_sep c && all_sep r
  end.

(** [os.path.dirname(p)] *)
Definition os_path_dirname (p : string) : string :=
  let head := upto_last_sep p in
  if negb (String.eqb head "") && negb (all_sep head)
  then rstrip_by is_sep head
  else head.

(** ** TOSCA template key names *)

Definition DEFINITION_VERSION := "tosca_definitions_version".
Definition DEFAULT_NAMESPACE := "tosca_default_namespace".
Definition TEMPLATE_NAME := "template_name".
Definition TOPOLOGY_TEMPLATE := "topology_template".
Definition TEMPLATE_AUTHOR := "template_author".
Definition TEMPLATE_VERSION := "template_version".
Definition DESCRIPTION := "description".
Definition IMPORTS := "imports".
Definition DSL_DEFINITIONS := "dsl_definitions".
Definition NODE_TYPES := "node_types".
Definition RELATIONSHIP_TYPES := "relationship_types".
Definition RELATIONSHIP_TEMPLATES := "relationship_templates".
Definition CAPABILITY_TYPES := "capability_types".
Definition ARTIFACT_TYPES := "artifact_types".
Definition DATATYPE_DEFINITIONS := "datatype_definitions".

Definition SECTIONS : list string :=
  [DEFINITION_VERSION; DEFAULT_NAMESPACE; TEMPLATE_NAME;
   TOPOLOGY_TEMPLATE; TEMPLATE_AUTHOR; TEMPLATE_VERSION;
   DESCRIPTION; IMPORTS; DSL_DEFINITIONS; NODE_TYPES;
   RELATIONSHIP_TYPES; RELATIONSHIP_TEMPLATES;
   CAPABILITY_TYPES; ARTIFACT_TYPES; DATATYPE_DEFINITIONS].

Definition VALID_TEMPLATE_VERSIONS : list string := ["tosca_simple_yaml_1_0"].

(** [name in l] for a list of strings [l]. *)
Definition str_in (name : string) (l : list string) : bool :=
  existsb (String.eqb name) l.

(** [v in l] for a YAML value [v]: only a string equals a string. *)
Definition value_in (v : value) (l : list string) : bool :=
  match v with
  | VStr s => str_in s l
  | _ => false
  end.

(** ** Exceptions *)

Inductive exn : Type :=
| KeyError (key : string)
| TypeError
| ValueError
| AttributeError
| ImportError (msg : string)
| MissingRequiredFieldError (what required : string)
| UnknownFieldError (what field : string)
| InvalidTemplateVersion (what : value) (valid_versions : string)
| ExternalError (msg : string).

Inductive outcome (A : Type) : Type :=
| Return (a : A)
| Raise (e : exn).
Arguments Return {A} a.
Arguments Raise {A} e.

(** ** The world outside the module *)

(** What [TopologyTemplate(...)] exposes to this module. *)
Record TopologyTemplate : Type := {
  topology_inputs : value;
  topology_nodetemplates : value;
  topology_relationship_templates : value;
  topology_outputs : value
}.

(** The collaborators the module imports, and the filesystem it queries.
    [YAML_LOADER] is [toscaparser.utils.yamlparser.load_yaml], [validate_url]
    and [join_url] are [toscaparser.utils.urlutils.UrlUtils]'s.  Like the
    loader and the two builders, [join_url] may raise: it refuses a base
    that is no URL. *)
Record World : Type := {
  os_path_isfile : string -> bool;
  os_path_abspath : string -> string;
  validate_url : string -> bool;
  join_url : string -> string -> outcome string;
  YAML_LOADER : string -> bool -> outcome value;
  TopologyTemplate_new : value -> dict -> dict -> value -> outcome TopologyTemplate;
  ToscaGraph_new : value -> outcome value
}.

(** A call that leaves the module. *)
Inductive call : Type :=
| Call_isfile (p : string)
| Call_validate_url (s : string)
| Call_join_url (base rel : string)
| Call_YAML_LOADER (p : string) (a_file : bool)
| Call_TopologyTemplate
| Call_ToscaGraph.

(** ** The object and the computations on it *)

Record ToscaTemplate : Type := {
  self_tpl : dict;
  self_path : string;
  self_a_file : bool;
  self_parsed_params : value;
  self_version : option value;
  self_relationship_types : option dict;
  self_description : option string;
  self_topology_template : option TopologyTemplate;
  self_inputs : option value;
  self_relationship_templates : option value;
  self_nodetemplates : option value;
  self_outputs : option value;
  self_graph : option value
}.

Record result (A : Type) : Type := {
  res : outcome A;
  obj : ToscaTemplate;
  log : list call
}.

Definition M (A : Type) : Type := ToscaTemplate -> result A.

Definition ret {A} (a : A) : M A :=
  fun self => {| res := Return a; obj := self; log := [] |}.

Definition raise {A} (e : exn) : M A :=
  fun self => {| res := Raise e; obj := self; log := [] |}.

Definition bind {A B} (m : M A) (f : A -> M B) : M B :=
  fun self =>
    let r := m self in
    match res r with
    | Return a =>
        let r' := f a (obj r) in
        {| res := res r'; obj := obj r'; log := log r ++ log r' |}
    | Raise e => {| res := Raise e; obj := obj r; log := log r |}
    end.

Notation "x <- m ;; k" := (bind m (fun x => k))
  (at level 61, m at next level, right associativity).
Notation "' pat <- m ;; k" :=
  (bind m (fun x => match x with pat => k end))
  (at level 61, pat pattern, m at next level, right associativity).
Notation "m ;;; k" := (bind m (fun _ => k))
  (at level 61, right associativity).

(** [try: m except KeyError: h] *)
Definition except_KeyError {A} (m : M A) (h : M A) : M A :=
  fun self =>
    let r := m self in
    match res r with
    | Raise (KeyError _) =>
        let r' := h (obj r) in
        {| res := res r'; obj := obj r'; log := log r ++ log r' |}
    | _ => r
    end.

(** [for x in l: body] with the local [acc] the body rebinds or mutates. *)
Fixpoint for_in {A B} (l : list A) (acc : B) (body : B -> A -> M B) : M B :=
  match l with
  | [] => ret acc
  | x :: l' => acc' <- body acc x ;; for_in l' acc' body
  end.

(** [self.attr] for an attribute that is assigned when the object is
    loaded: [read self_tpl] is [self.tpl]. *)
Definition read {A} (attr : ToscaTemplate -> A) : M A :=
  fun self => {| res := Return (attr self); obj := self; log := [] |}.

Definition set_self (f : ToscaTemplate -> ToscaTemplate) : M unit :=
  fun self => {| res := Return tt; obj := f self; log := [] |}.

Definition external {A} (c : call) (o : outcome A) : M A :=
  fun self => {| res := o; obj := self; log := [c] |}.

(** [custom_defs.update(other)] for whatever [other] is: a mapping is
    merged; a sequence must consist of pairs, and a string of length two is
    one; the characters of a non-empty string are not. *)
Definition pair_of_string (s : string) : option (string * value) :=
  match s with
  | String k (String v "") => Some (String k "", VStr (String v ""))
  | _ => None
  end.

Fixpoint update_from_pairs (d : dict) (l : list string) : outcome dict :=
  match l with
  | [] => Return d
  | s :: l' =>
      match pair_of_string s with
      | Some (k, v) => update_from_pairs (PyDict.setitem d k v) l'
      | None => Raise ValueError
      end
  end.

Definition dict_update (d : dict) (other : value) : outcome dict :=
  match other with
  | VNull => Raise TypeError
  | VStr s => update_from_pairs d (chars s)
  | VSeq l => update_from_pairs d l
  | VMap m => Return (PyDict.update d m)
  end.

(** [v.get(k)]: only a mapping has the method. *)
Definition value_get (v : value) (k : string) : outcome value :=
  match v with
  | VMap m => Return (PyDict.get k m)
  | _ => Raise AttributeError
  end.

Definition lift {A} (o : outcome A) : M A :=
  fun self => {| res := o; obj := self; log := [] |}.

(** [self.attr = v] for the attributes [__init__] assigns after loading. *)
Definition with_version (v : value) (s : ToscaTemplate) : ToscaTemplate :=
  Build_ToscaTemplate (self_tpl s) (self_path s) (self_a_file s)
    (self_parsed_params s) (Some v) (self_relationship_types s)
    (self_description s) (self_topology_template s) (self_inputs s)
    (self_relationship_templates s) (self_nodetemplates s) (self_outputs s)
    (self_graph s).

Definition with_relationship_types (v : dict) (s : ToscaTemplate) : ToscaTemplate :=
  Build_ToscaTemplate (self_tpl s) (self_path s) (self_a_file s)
    (self_parsed_params s) (self_version s) (Some v)
    (self_description s) (self_topology_template s) (self_inputs s)
    (self_relationship_templates s) (self_nodetemplates s) (self_outputs s)
    (self_graph s).

Definition with_description (v : string) (s : ToscaTemplate) : ToscaTemplate :=
  Build_ToscaTemplate (self_tpl s) (self_path s) (self_a_file s)
    (self_parsed_params s) (self_version s) (self_relationship_types s)
    (Some v) (self_topology_template s) (self_inputs s)
    (self_relationship_templates s) (self_nodetemplates s) (self_outputs s)
    (self_graph s).

Definition with_topology_template (v : TopologyTemplate) (s : ToscaTemplate) : ToscaTemplate :=
  Build_ToscaTemplate (self_tpl s) (self_path s) (self_a_file s)
    (self_parsed_params s) (self_version s) (self_relationship_types s)
    (self_description s) (Some v) (self_inputs s)
    (self_relationship_templates s) (self_nodetemplates s) (self_outputs s)
    (self_graph s).

Definition with_inputs (v : value) (s : ToscaTemplate) : ToscaTemplate :=
  Build_ToscaTemplate (self_tpl s) (self_path s) (self_a_file s)
    (self_parsed_params s) (self_version s) (self_relationship_types s)
    (self_description s) (self_topology_template s) (Some v)
    (self_relationship_templates s) (self_nodetemplates s) (self_outputs s)
    (self_graph s).

Definition with_relationship_templates (v : value) (s : ToscaTemplate) : ToscaTemplate :=
  Build_ToscaTemplate (self_tpl s) (self_path s) (self_a_file s)
    (self_parsed_params s) (self_version s) (self_relationship_types s)
    (self_description s) (self_topology_template s) (self_inputs s)
    (Some v) (self_nodetemplates s) (self_outputs s)
    (self_graph s).

Definition with_nodetemplates (v : value) (s : ToscaTemplate) : ToscaTemplate :=
  Build_ToscaTemplate (self_tpl s) (self_path s) (self_a_file s)
    (self_parsed_params s) (self_version s) (self_relationship_types s)
    (self_description s) (self_topology_template s) (self_inputs s)
    (self_relationship_templates s) (Some v) (self_outputs s)
    (self_graph s).

Definition with_outputs (v : value) (s : ToscaTemplate) : ToscaTemplate :=
  Build_ToscaTemplate (self_tpl s) (self_path s) (self_a_file s)
    (self_parsed_params s) (self_version s) (self_relationship_types s)
    (self_description s) (self_topology_template s) (self_inputs s)
    (self_relationship_templates s) (self_nodetemplates s) (Some v)
    (self_graph s).

Definition with_graph (v : value) (s : ToscaTemplate) : ToscaTemplate :=
  Build_ToscaTemplate (self_tpl s) (self_path s) (self_a_file s)
    (self_parsed_params s) (self_version s) (self_relationship_types s)
    (self_description s) (self_topology_template s) (self_inputs s)
    (self_relationship_templates s) (self_nodetemplates s) (self_outputs s)
    (Some v).

(** The object once [self.tpl], [self.path], [self.a_file] and
    [self.parsed_params] are assigned. *)
Definition loaded (tpl : dict) (path : string) (a_file : bool)
    (parsed_params : value) : ToscaTemplate :=
  Build_ToscaTemplate tpl path a_file parsed_params
    None None None None None None None None None.

(** [self.attr] for an attribute [__init__] assigns later: reading it
    before that is an [AttributeError]. *)
Definition attr {A} (f : ToscaTemplate -> option A) : M A :=
  fun self =>
    {| res := match f self with
              | Some a => Return a
              | None => Raise AttributeError
              end;
       obj := self; log := [] |}.

(** [d[k]] *)
Definition getitem (d : dict) (k : string) : M value :=
  match PyDict.lookup k d with
  | Some v => ret v
  | None => raise (KeyError k)
  end.

(** ** class ToscaTemplate *)

Section ToscaTemplate_methods.

Variable W : World.

Definition isfile (p : string) : M bool :=
  external (Call_isfile p) (Return (os_path_isfile W p)).

Definition UrlUtils_validate_url (s : string) : M bool :=
  external (Call_validate_url s) (Return (validate_url W s)).

Definition UrlUtils_join_url (base rel : string) : M string :=
  external (Call_join_url base rel) (join_url W base rel).

Definition load_yaml (p : string) (a_file : bool) : M value :=
  external (Call_YAML_LOADER p a_file) (YAML_LOADER W p a_file).

Definition _tpl_version : M value :=
  tpl <- read self_tpl ;;
  getitem tpl DEFINITION_VERSION.

Definition _tpl_description : M string :=
  tpl <- read self_tpl ;;
  d <- getitem tpl DESCRIPTION ;;
  match d with
  | VStr s => ret (rstrip s)
  | _ => raise AttributeError
  end.

Definition _tpl_imports : M value :=
  tpl <- read self_tpl ;;
  if PyDict.contains IMPORTS tpl
  then getitem tpl IMPORTS
  else ret VNull.

Definition _tpl_topology_template : M value :=
  tpl <- read self_tpl ;;
  ret (PyDict.get TOPOLOGY_TEMPLATE tpl).

Definition _tpl_relationship_templates : M value :=
  topology_template <- _tpl_topology_template ;;
  match topology_template with
  | VMap m =>
      if PyDict.contains RELATIONSHIP_TEMPLATES m
      then getitem m RELATIONSHIP_TEMPLATES
      else ret VNull
  | _ => raise AttributeError
  end.

Definition ImportError_message : string :=
  "Absolute file name cannot be used for a URL-based input template.".

(** The part of the loop body of [_get_custom_types] that settles
    [def_file] and [a_file] for one import (source lines 141-162). *)
Definition resolve_import (main_a_file : bool) (definition : string)
    : M (string * bool) :=
  let def_file := definition in
  let a_file := false in
  if main_a_file then
    found <- isfile definition ;;
    if found then ret (def_file, true)
    else
      path <- read self_path ;;
      let full_path :=
        os_path_join (os_path_dirname (os_path_abspath W path))
          definition in
      found <- isfile full_path ;;
      if found then ret (full_path, true)
      else ret (def_file, a_file)
  else (* main_a_url *)
    a_url <- UrlUtils_validate_url definition ;;
    if negb a_url then
      if os_path_isabs definition
      then raise (ImportError ImportError_message)
      else
        path <- read self_path ;;
        def_file <- UrlUtils_join_url path definition ;;
        ret (def_file, a_file)
    else ret (def_file, a_file).

(** ... up to [custom_type = YAML_LOADER(def_file, a_file)]
    (source lines 141-164). *)
Definition load_import (main_a_file : bool) (definition : string)
    : M value :=
  '(def_file, a_file) <- resolve_import main_a_file definition ;;
  load_yaml def_file a_file.

(** One turn of [for definition in imports] (source lines 141-167). *)
Definition import_body (main_a_file : bool) (type_definition : string)
    (custom_defs : dict) (definition : string) : M dict :=
  custom_type <- load_import main_a_file definition ;;
  outer_custom_types <- lift (value_get custom_type type_definition) ;;
  if truthy outer_custom_types
  then lift (dict_update custom_defs outer_custom_types)
  else ret custom_defs.

Definition _get_custom_types (type_definition : string) : M dict :=
  let custom_defs := [] in
  imports <- _tpl_imports ;;
  custom_defs <-
    (if truthy imports then
       path <- read self_path ;;
       main_a_file <- isfile path ;;
       for_in (iter imports) custom_defs
         (import_body main_a_file type_definition)
     else ret custom_defs) ;;
  (* Handle custom types defined in current template file *)
  tpl <- read self_tpl ;;
  let inner_custom_types :=
    py_or (PyDict.get type_definition tpl) (VMap []) in
  if truthy inner_custom_types
  then lift (dict_update custom_defs inner_custom_types)
  else ret custom_defs.

Definition _tpl_relationship_types : M dict :=
  _get_custom_types RELATIONSHIP_TYPES.

Definition _get_all_custom_defs : M dict :=
  let types := [NODE_TYPES; CAPABILITY_TYPES; RELATIONSHIP_TYPES;
                DATATYPE_DEFINITIONS] in
  let custom_defs := [] in
  for_in types custom_defs (fun custom_defs type =>
    custom_def <- _get_custom_types type ;;
    if truthy (VMap custom_def)
    then lift (dict_update custom_defs (VMap custom_def))
    else ret custom_defs).

Definition _validate_version (version : value) : M unit :=
  if negb (value_in version VALID_TEMPLATE_VERSIONS)
  then raise (InvalidTemplateVersion version
                (String.concat ", " VALID_TEMPLATE_VERSIONS))
  else ret tt.

Definition _validate_field : M unit :=
  except_KeyError
    (version <- _tpl_version ;;
     _validate_version version)
    (raise (MissingRequiredFieldError "Template" DEFINITION_VERSION)) ;;;
  tpl <- read self_tpl ;;
  for_in (PyDict.keys tpl) tt (fun _ name =>
    if negb (str_in name SECTIONS)
    then raise (UnknownFieldError "Template" name)
    else ret tt).

Definition _topology_template : M TopologyTemplate :=
  template <- _tpl_topology_template ;;
  custom_defs <- _get_all_custom_defs ;;
  relationship_types <- attr self_relationship_types ;;
  parsed_params <- read self_parsed_params ;;
  external Call_TopologyTemplate
    (TopologyTemplate_new W template custom_defs relationship_types
       parsed_params).

Definition _inputs : M value :=
  t <- attr self_topology_template ;; ret (topology_inputs t).

Definition _nodetemplates : M value :=
  t <- attr self_topology_template ;; ret (topology_nodetemplates t).

Definition _relationship_templates : M value :=
  t <- attr self_topology_template ;;
  ret (topology_relationship_templates t).

Definition _outputs : M value :=
  t <- attr self_topology_template ;; ret (topology_outputs t).

(** [__init__] from [self._validate_field()] on. *)
Definition init_rest : M unit :=
  _validate_field ;;;
  v <- _tpl_version ;; set_self (with_version v) ;;;
  v <- _tpl_relationship_types ;; set_self (with_relationship_types v) ;;;
  v <- _tpl_description ;; set_self (with_description v) ;;;
  v <- _topology_template ;; set_self (with_topology_template v) ;;;
  v <- _inputs ;; set_self (with_inputs v) ;;;
  v <- _relationship_templates ;; set_self (with_relationship_templates v) ;;;
  v <- _nodetemplates ;; set_self (with_nodetemplates v) ;;;
  v <- _outputs ;; set_self (with_outputs v) ;;;
  nodetemplates <- attr self_nodetemplates ;;
  v <- external Call_ToscaGraph (ToscaGraph_new W nodetemplates) ;;
  set_self (with_graph v).

(** [ToscaTemplate(path, a_file, parsed_params)]: the outcome, the object
    when the constructor returns, and the calls made.  A document that is
    not a mapping cannot be subscripted: [_tpl_version], the first to
    read it, raises [TypeError]. *)
Definition __init__ (path : string) (a_file : bool) (parsed_params : value)
    : outcome ToscaTemplate * list call :=
  match YAML_LOADER W path a_file with
  | Raise e => (Raise e, [Call_YAML_LOADER path a_file])
  | Return (VMap tpl) =>
      let r := init_rest (loaded tpl path a_file parsed_params) in
      (match res r with
       | Return _ => Return (obj r)
       | Raise e => Raise e
       end, Call_YAML_LOADER path a_file :: log r)
  | Return _ => (Raise TypeError, [Call_YAML_LOADER path a_file])
  end.

End ToscaTemplate_methods.

(** ** Vocabulary of the statements *)

(** The first top-level key that is no section name, if there is one. *)
Definition first_unknown (ks : list string) : option string :=
  find (fun name => negb (str_in name SECTIONS)) ks.

(** The definitions a document gives for one category, where its section
    is a mapping or is missing or null. *)
Definition is_section (v : value) : bool :=
  match v with
  | VNull | VMap _ => true
  | _ => false
  end.

Definition section (type_definition : string) (doc : dict) : dict :=
  match PyDict.get type_definition doc with
  | VMap m => m
  | _ => []
  end.

(** The import references of a document, in declaration order. *)
Definition imports_of (tpl : dict) : list string :=
  iter (PyDict.get IMPORTS tpl).

(** The overwrite-merge of the imported documents' sections, first to
    last. *)
Definition merge_sections (type_definition : string) (docs : list dict)
    : dict :=
  fold_left (fun acc doc => PyDict.update acc (section type_definition doc))
    docs [].

(** What one imported document contributes to [custom_defs] (source lines
    165-167), and what the root's own definitions do (lines 170-172). *)
Definition merge_outer (ty : string) (custom_defs : dict) (doc : value)
    : outcome dict :=
  match value_get doc ty with
  | Return outer =>
      if truthy outer then dict_update custom_defs outer
      else Return custom_defs
  | Raise e => Raise e
  end.

Definition merge_inner (ty : string) (tpl custom_defs : dict)
    : outcome dict :=
  let inner_custom_types := py_or (PyDict.get ty tpl) (VMap []) in
  if truthy inner_custom_types
  then dict_update custom_defs inner_custom_types
  else Return custom_defs.

(** The category merge as the specification words it: the root locality
    is the flag the object was constructed with, fixed at load time, and
    every import is resolved against it. *)
Definition mergeCategory (W : World) (type_definition : string) : M dict :=
  rootLocality <- read self_a_file ;;
  imports <- _tpl_imports ;;
  custom_defs <-
    for_in (iter imports) [] (import_body W rootLocality type_definition) ;;
  tpl <- read self_tpl ;;
  lift (merge_inner type_definition tpl custom_defs).

(** The documents a call log shows being loaded, each with the flag it
    was loaded with, in the order of the calls. *)
Fixpoint loads_of (l : list call) : list (string * bool) :=
  match l with
  | [] => []
  | Call_YAML_LOADER p a_file :: l' => (p, a_file) :: loads_of l'
  | _ :: l' => loads_of l'
  end.

(** A call that stays off the local filesystem but for asking about
    [root]: a load carries the non-local flag, a file check is of [root]. *)
Definition off_filesystem (root : string) (c : call) : Prop :=
  match c with
  | Call_YAML_LOADER _ a_file => a_file = false
  | Call_isfile p => p = root
  | _ => True
  end.

(** A call that is none to the URL utilities. *)
Definition no_url_call (c : call) : Prop :=
  match c with
  | Call_validate_url _ | Call_join_url _ _ => False
  | _ => True
  end.


(** The check of the root path that a merge with imports starts with
    (source line 139). *)
Definition root_check (s : ToscaTemplate) : list call :=
  if truthy (PyDict.get IMPORTS (self_tpl s))
  then [Call_isfile (self_path s)] else [].

(** Loading [def_file] with the flag [a_file] and merging its section of
    the category into [custom_defs] (source lines 164-167). *)
Definition load_and_merge (W : World) (ty : string) (custom_defs : dict)
    (def_file : string) (a_file : bool) : outcome dict :=
  match YAML_LOADER W def_file a_file with
  | Return doc => merge_outer ty custom_defs doc
  | Raise e => Raise e
  end.

(** The calls the resolution table gives for the import [d] of a root
    [root] on its local rows: [d] as given when it names a file, else [d]
    joined to the directory of the root's absolute path when that names a
    file, else [d] as given and not as a file. *)
Definition local_import_calls (W : World) (root d : string) : list call :=
  let full_path :=
    os_path_join (os_path_dirname (os_path_abspath W root)) d in
  if os_path_isfile W d then
    [Call_isfile d; Call_YAML_LOADER d true]
  else if os_path_isfile W full_path then
    [Call_isfile d; Call_isfile full_path; Call_YAML_LOADER full_path true]
  else
    [Call_isfile d; Call_isfile full_path; Call_YAML_LOADER d false].

(** And on its remote rows: a URL as given; an absolute path refused
    after the URL check; anything else joined against the root, and
    loaded where the join gives a URL. *)
Definition remote_import_calls (W : World) (root d : string) : list call :=
  if validate_url W d then
    [Call_validate_url d; Call_YAML_LOADER d false]
  else if os_path_isabs d then
    [Call_validate_url d]
  else
    match join_url W root d with
    | Return url =>
        [Call_validate_url d; Call_join_url root d;
         Call_YAML_LOADER url false]
    | Raise _ => [Call_validate_url d; Call_join_url root d]
    end.

(** ** Sample worlds *)

Module Sample.

Definition no_topology : TopologyTemplate :=
  {| topology_inputs := VNull;
     topology_nodetemplates := VSeq [];
     topology_relationship_templates := VNull;
     topology_outputs := VNull |}.

(** A machine whose working directory is [/cwd], with regular files
    [files] and readable files that are not regular (pipes, devices)
    [special], both under absolute names, and a web serving [urls]. *)
Definition abspath (p : string) : string :=
  if os_path_isabs p then p else os_path_join "/cwd" p.

Definition is_url (s : string) : bool :=
  String.prefix "http://" s || String.prefix "https://" s.

Definition fetch (p : string) (store : dict) : outcome value :=
  match PyDict.lookup p store with
  | Some v => Return v
  | None => Raise (ExternalError p)
  end.

Definition world (files special urls : dict) : World :=
  {| os_path_isfile := fun p => PyDict.contains (abspath p) files;
     os_path_abspath := abspath;
     validate_url := is_url;
     join_url := fun base rel =>
       if is_url base then Return (String.append (upto_last_sep base) rel)
       else Raise ValueError;
     YAML_LOADER := fun p a_file =>
       if a_file then fetch (abspath p) (files ++ special)
       else fetch p urls;
     TopologyTemplate_new := fun _ _ _ _ => Return no_topology;
     ToscaGraph_new := fun nodetemplates => Return nodetemplates |}.

Definition version_1_0 : string * value :=
  (DEFINITION_VERSION, VStr "tosca_simple_yaml_1_0").

(** Documents for field validation. *)
Definition tpl_unknown_only : dict := [("foo", VStr "bar")].

Definition tpl_two_unknown : dict :=
  [version_1_0; ("foo", VStr "bar"); (DESCRIPTION, VStr "d");
   ("baz", VNull)].

Definition tpl_bad_version : dict :=
  [(DEFINITION_VERSION, VStr "tosca_simple_yaml_9_9")].

Definition tpl_minimal : dict :=
  [version_1_0; (DESCRIPTION, VStr "A template.  ")].

Definition tpl_version_only : dict := [version_1_0].

Definition minimal_world : World :=
  world [("/cwd/root.yaml", VMap tpl_minimal);
         ("/cwd/nodesc.yaml", VMap tpl_version_only)] [] [].

(** Type definitions three documents give for node type [X]. *)
Definition types_A : dict :=
  [(NODE_TYPES, VMap [("X", VStr "A"); ("Y", VStr "A")])].

Definition types_B : dict :=
  [(NODE_TYPES, VMap [("X", VStr "B")]);
   (ARTIFACT_TYPES, VMap [("Art", VStr "B")])].

Definition types_C : dict :=
  [(CAPABILITY_TYPES, VMap [("Cap", VStr "C")])].

(** A project on disk: the root [a/root.yaml] imports [types.yaml], which
    lies next to it, [b.yaml], which lies in the working directory, and
    a document on the web. *)
Definition tpl_local : dict :=
  [version_1_0; (DESCRIPTION, VStr "Local root.");
   (IMPORTS, VSeq ["types.yaml"; "b.yaml"; "http://host/c.yaml"])].

Definition local_self : ToscaTemplate :=
  loaded tpl_local "a/root.yaml" true VNull.

(** A root that imports two documents defining node type [X] and defines
    node type [Y], which the first import defines too, inline. *)
Definition tpl_merge : dict :=
  [version_1_0; (DESCRIPTION, VStr "Merging root.");
   (IMPORTS, VSeq ["types.yaml"; "b.yaml"]);
   (NODE_TYPES, VMap [("Y", VStr "root")]);
   (DATATYPE_DEFINITIONS, VMap [("X", VStr "data")])].

Definition merge_self : ToscaTemplate :=
  loaded tpl_merge "a/merge.yaml" true VNull.

(** A root with inline definitions and an empty imports list. *)
Definition tpl_inline : dict :=
  [version_1_0; (DESCRIPTION, VStr "Inline only.");
   (IMPORTS, VSeq []);
   (NODE_TYPES, VMap [("N", VStr "root")])].

Definition inline_self : ToscaTemplate :=
  loaded tpl_inline "a/inline.yaml" true VNull.

Definition local_world : World :=
  world [("/cwd/a/root.yaml", VMap tpl_local);
         ("/cwd/a/merge.yaml", VMap tpl_merge);
         ("/cwd/a/inline.yaml", VMap tpl_inline);
         ("/cwd/a/types.yaml", VMap types_A);
         ("/cwd/b.yaml", VMap types_B)]
        []
        [("http://host/c.yaml", VMap types_C)].

(** A template fetched from the web, importing a relative reference and
    a URL; and one importing an absolute path. *)
Definition tpl_remote : dict :=
  [version_1_0; (DESCRIPTION, VStr "Remote root.");
   (IMPORTS, VSeq ["types.yaml"; "http://host/c.yaml"])].

Definition tpl_remote_abs : dict :=
  [version_1_0; (DESCRIPTION, VStr "Remote root.");
   (IMPORTS, VSeq ["/etc/types.yaml"])].

Definition remote_world : World :=
  world [("/etc/types.yaml", VMap types_A)]
        []
        [("https://host/root.yaml", VMap tpl_remote);
         ("https://host/abs.yaml", VMap tpl_remote_abs);
         ("https://host/types.yaml", VMap types_A);
         ("http://host/c.yaml", VMap types_C)].

Definition remote_self : ToscaTemplate :=
  loaded tpl_remote "https://host/root.yaml" false VNull.

Definition remote_abs_self : ToscaTemplate :=
  loaded tpl_remote_abs "https://host/abs.yaml" false VNull.

(** A template read from a pipe: loaded as a file, though the path names
    no regular file. *)
Definition tpl_pipe : dict :=
  [version_1_0; (DESCRIPTION, VStr "Read from a pipe.");
   (IMPORTS, VSeq ["/etc/types.yaml"])].

Definition pipe_world : World :=
  world [("/etc/types.yaml", VMap types_A)]
        [("/dev/stdin", VMap tpl_pipe)]
        [].

Definition pipe_self : ToscaTemplate :=
  loaded tpl_pipe "/dev/stdin" true VNull.

(** A template whose [description] key has no value, one with neither
    a topology nor imports, and one with a topology section. *)
Definition tpl_null_description : dict :=
  [version_1_0; (DESCRIPTION, VNull)].

Definition tpl_topology : dict :=
  [version_1_0; (DESCRIPTION, VStr "With a topology.");
   (IMPORTS, VSeq ["types.yaml"; "b.yaml"]);
   (TOPOLOGY_TEMPLATE,
    VMap [("inputs", VNull);
          (RELATIONSHIP_TEMPLATES, VMap [("rt", VStr "r")])])].

(** A template with a key that is no section, and a template without
    a description whose import is nowhere to be found; both have
    imports. *)
Definition tpl_invalid_imports : dict :=
  [version_1_0; (IMPORTS, VSeq ["types.yaml"]); ("foo", VNull)].

Definition tpl_missing_import : dict :=
  [version_1_0; (IMPORTS, VSeq ["types.yaml"; "gone.yaml"])].

Definition more_world : World :=
  world [("/cwd/a/null.yaml", VMap tpl_null_description);
         ("/cwd/a/topology.yaml", VMap tpl_topology);
         ("/cwd/a/types.yaml", VMap types_A);
         ("/cwd/b.yaml", VMap types_B);
         ("/cwd/a/invalid.yaml", VMap tpl_invalid_imports);
         ("/cwd/a/missing.yaml", VMap tpl_missing_import)] [] [].

Definition topology_self : ToscaTemplate :=
  loaded tpl_topology "a/topology.yaml" true VNull.

(** Templates fetched from URLs whose strings also name regular files:
    the working directory holds a directory [http:] with copies of them.
    They are constructed with the is-local flag off, though their paths
    are files. *)
Definition tpl_shadow_abs : dict :=
  [version_1_0; (DESCRIPTION, VStr "Shadowed root.");
   (IMPORTS, VSeq ["/etc/types.yaml"])].

Definition tpl_shadow_rel : dict :=
  [version_1_0; (DESCRIPTION, VStr "Shadowed root.");
   (IMPORTS, VSeq ["types.yaml"])].

Definition shadow_world : World :=
  world [("/cwd/http://host/abs.yaml", VMap tpl_shadow_abs);
         ("/cwd/http://host/rel.yaml", VMap tpl_shadow_rel);
         ("/cwd/http://host/types.yaml", VMap types_B);
         ("/etc/types.yaml", VMap types_A)]
        []
        [("http://host/abs.yaml", VMap tpl_shadow_abs);
         ("http://host/rel.yaml", VMap tpl_shadow_rel);
         ("http://host/types.yaml", VMap types_A)].

Definition shadow_abs_self : ToscaTemplate :=
  loaded tpl_shadow_abs "http://host/abs.yaml" false VNull.

Definition shadow_rel_self : ToscaTemplate :=
  loaded tpl_shadow_rel "http://host/rel.yaml" false VNull.

(** A template read from a pipe, as a file, whose import lies in the
    working directory. *)
Definition tpl_fifo : dict :=
  [version_1_0; (DESCRIPTION, VStr "Read from a pipe.");
   (IMPORTS, VSeq ["b.yaml"])].

Definition fifo_world : World :=
  world [("/cwd/b.yaml", VMap types_B)]
        [("/dev/stdin", VMap tpl_fifo)]
        [].

Definition fifo_self : ToscaTemplate :=
  loaded tpl_fifo "/dev/stdin" true VNull.

End Sample.

(** * Properties *)

Unset Implicit Arguments.

(** ** Dictionaries *)

Module PyDictFacts.
Import PyDict.

Lemma lookup_None_keys k d : lookup k d = None <-> ~ In k (keys d).
Proof.
  induction d as [|[k' v] d IH]; simpl.
  - tauto.
  - destruct (String.eqb_spec k k') as [->|Hne].
    + split; [discriminate | intros H; exfalso; auto].
    + rewrite IH. split; [intros H [E|I]; [congruence | auto] | auto].
Qed.

Lemma lookup_Some_keys k d v : lookup k d = Some v -> In k (keys d).
Proof.
  intros H. destruct (in_dec string_dec k (keys d)) as [I|N]; [exact I|].
  apply lookup_None_keys in N. congruence.
Qed.

Lemma contains_lookup k d :
  contains k d = true <-> exists v, lookup k d = Some v.
Proof.
  unfold contains. induction d as [|[k' v] d IH]; simpl.
  - split; [discriminate | intros [v H]; discriminate].
  - destruct (String.eqb k k'); simpl.
    + split; eauto.
    + exact IH.
Qed.

Lemma lookup_setitem_eq d k v : lookup k (setitem d k v) = Some v.
Proof.
  induction d as [|[k' v'] d IH]; simpl.
  - now rewrite String.eqb_refl.
  - destruct (String.eqb k k') eqn:E; simpl; rewrite E; auto.
Qed.

Lemma lookup_setitem_neq d k k' v :
  k <> k' -> lookup k (setitem d k' v) = lookup k d.
Proof.
  intros Hne. induction d as [|[k'' v''] d IH]; simpl.
  - destruct (String.eqb_spec k k'); congruence.
  - destruct (String.eqb_spec k' k'') as [->|Hne']; simpl.
    + destruct (String.eqb_spec k k''); congruence.
    + now rewrite IH.
Qed.

Lemma lookup_fold_setitem (g : string -> value) k ks d :
  lookup k (fold_left (fun acc k' => setitem acc k' (g k')) ks d)
  = if in_dec string_dec k ks then Some (g k) else lookup k d.
Proof.
  revert d. induction ks as [|k0 ks IH]; intros d; simpl.
  - reflexivity.
  - rewrite IH. destruct (in_dec string_dec k ks) as [I|N].
    + destruct (string_dec k0 k); [|destruct (in_dec string_dec k ks)];
        tauto || reflexivity.
    + destruct (string_dec k0 k) as [->|Hne].
      * apply lookup_setitem_eq.
      * destruct (in_dec string_dec k ks); [tauto|].
        apply lookup_setitem_neq; congruence.
Qed.

(** [d.update(other)]: [other]'s entries win, the rest of [d] stays. *)
Lemma lookup_update k d other :
  lookup k (update d other)
  = match lookup k other with
    | Some v => Some v
    | None => lookup k d
    end.
Proof.
  unfold update. rewrite lookup_fold_setitem.
  destruct (in_dec string_dec k (keys other)) as [I|N].
  - unfold get. destruct (lookup k other) eqn:E; [reflexivity|].
    apply lookup_None_keys in E. tauto.
  - apply lookup_None_keys in N. now rewrite N.
Qed.

Lemma update_nil d : update d [] = d.
Proof. reflexivity. Qed.

Lemma setitem_fresh d k v : ~ In k (keys d) -> setitem d k v = d ++ [(k, v)].
Proof.
  induction d as [|[k' v'] d IH]; simpl; intros H.
  - reflexivity.
  - destruct (String.eqb_spec k k') as [->|Hne]; [tauto|].
    rewrite IH; auto.
Qed.

Lemma fold_setitem_suffix (other pre post : dict) :
  NoDup (keys (pre ++ post)) ->
  (forall k, In k (keys post) -> get k other = get k post) ->
  fold_left (fun acc k => setitem acc k (get k other)) (keys post) pre
  = pre ++ post.
Proof.
  revert pre. induction post as [|[k v] post IH]; intros pre ND G; simpl.
  - now rewrite app_nil_r.
  - assert (Hk : ~ In k (keys pre) /\ ~ In k (keys post)).
    { unfold keys in *. rewrite map_app in ND. simpl in ND.
      apply NoDup_remove_2 in ND. rewrite in_app_iff in ND. tauto. }
    rewrite setitem_fresh by tauto.
    assert (Hv : get k other = v).
    { rewrite G by (simpl; auto). unfold get. simpl.
      now rewrite String.eqb_refl. }
    rewrite Hv, IH.
    + now rewrite <- app_assoc.
    + now rewrite <- app_assoc.
    + intros k' I. rewrite G by (simpl; auto).
      unfold get. simpl. destruct (String.eqb_spec k' k) as [->|]; [tauto|].
      reflexivity.
Qed.

(** Updating the empty dictionary with a dictionary copies it. *)
Lemma update_empty other : wf other -> update [] other = other.
Proof.
  intros ND. unfold update.
  now rewrite (fold_setitem_suffix other [] other).
Qed.

End PyDictFacts.

(** ** Computations *)

Lemma bind_Return {A B} (m : M A) (f : A -> M B) s a :
  res (m s) = Return a ->
  res (bind m f s) = res (f a (obj (m s))) /\
  obj (bind m f s) = obj (f a (obj (m s))) /\
  log (bind m f s) = log (m s) ++ log (f a (obj (m s))).
Proof. intros H. unfold bind. rewrite H. simpl. auto. Qed.

Lemma bind_Raise {A B} (m : M A) (f : A -> M B) s e :
  res (m s) = Raise e ->
  res (bind m f s) = Raise e /\
  obj (bind m f s) = obj (m s) /\
  log (bind m f s) = log (m s).
Proof. intros H. unfold bind. rewrite H. simpl. auto. Qed.

(** A returning [bind]: both halves returned. *)
Lemma bind_inv {A B} (m : M A) (f : A -> M B) s b :
  res (bind m f s) = Return b ->
  exists a, res (m s) = Return a /\
            res (f a (obj (m s))) = Return b /\
            obj (bind m f s) = obj (f a (obj (m s))).
Proof.
  destruct (res (m s)) as [a|e] eqn:E.
  - destruct (bind_Return m f s a E) as (R & O & _).
    rewrite R, O. eauto.
  - destruct (bind_Raise m f s e E) as (R & _). rewrite R. discriminate.
Qed.

(** A computation that leaves the object as it found it. *)
Definition keeps_self {A} (m : M A) : Prop := forall s, obj (m s) = s.

(** Two objects with the same document at the same location. *)
Definition same_source (s s' : ToscaTemplate) : Prop :=
  self_tpl s = self_tpl s' /\ self_path s = self_path s'.

(** A computation that leaves the object alone and whose outcome and calls
    are settled by [self.tpl] and [self.path]. *)
Definition reader {A} (m : M A) : Prop :=
  keeps_self m /\
  forall s s', same_source s s' ->
    res (m s) = res (m s') /\ log (m s) = log (m s').

Create HintDb keeps.
Create HintDb reader.

Lemma reader_keeps {A} (m : M A) : reader m -> keeps_self m.
Proof. now intros [H _]. Qed.

Lemma keeps_ret {A} (a : A) : keeps_self (ret a).
Proof. intros s. reflexivity. Qed.

Lemma keeps_raise {A} e : keeps_self (@raise A e).
Proof. intros s. reflexivity. Qed.

Lemma keeps_lift {A} (o : outcome A) : keeps_self (lift o).
Proof. intros s. reflexivity. Qed.

Lemma keeps_external {A} c (o : outcome A) : keeps_self (external c o).
Proof. intros s. reflexivity. Qed.

Lemma keeps_read {A} (f : ToscaTemplate -> A) : keeps_self (read f).
Proof. intros s. reflexivity. Qed.

Lemma keeps_attr {A} (f : ToscaTemplate -> option A) : keeps_self (attr f).
Proof. intros s. reflexivity. Qed.

Lemma keeps_getitem d k : keeps_self (getitem d k).
Proof. intros s. unfold getitem. now destruct (PyDict.lookup k d). Qed.

Lemma keeps_bind {A B} (m : M A) (f : A -> M B) :
  keeps_self m -> (forall a, keeps_self (f a)) -> keeps_self (bind m f).
Proof.
  intros Hm Hf s. unfold bind. destruct (res (m s)); simpl.
  - now rewrite Hm, Hf.
  - apply Hm.
Qed.

Lemma keeps_except {A} (m h : M A) :
  keeps_self m -> keeps_self h -> keeps_self (except_KeyError m h).
Proof.
  intros Hm Hh s. unfold except_KeyError.
  destruct (res (m s)) as [a|[]]; simpl; try apply Hm.
  now rewrite Hm, Hh.
Qed.

Lemma keeps_for_in {A B} (l : list A) (body : B -> A -> M B) :
  (forall acc x, keeps_self (body acc x)) ->
  forall acc, keeps_self (for_in l acc body).
Proof.
  intros Hb. induction l as [|x l IH]; intros acc; simpl.
  - apply keeps_ret.
  - apply keeps_bind; auto.
Qed.

#[export] Hint Resolve keeps_ret keeps_raise keeps_lift keeps_external
  keeps_read keeps_attr keeps_getitem : keeps.

Lemma reader_ret {A} (a : A) : reader (ret a).
Proof. split; [apply keeps_ret | intros; split; reflexivity]. Qed.

Lemma reader_raise {A} e : reader (@raise A e).
Proof. split; [apply keeps_raise | intros; split; reflexivity]. Qed.

Lemma reader_lift {A} (o : outcome A) : reader (lift o).
Proof. split; [apply keeps_lift | intros; split; reflexivity]. Qed.

Lemma reader_external {A} c (o : outcome A) : reader (external c o).
Proof. split; [apply keeps_external | intros; split; reflexivity]. Qed.

Lemma reader_tpl : reader (read self_tpl).
Proof.
  split; [apply keeps_read | intros s s' [Ht _]; simpl; now rewrite Ht].
Qed.

Lemma reader_path : reader (read self_path).
Proof.
  split; [apply keeps_read | intros s s' [_ Hp]; simpl; now rewrite Hp].
Qed.

Lemma reader_getitem d k : reader (getitem d k).
Proof.
  split; [apply keeps_getitem |].
  intros s s' _. unfold getitem.
  destruct (PyDict.lookup k d); split; reflexivity.
Qed.

Lemma reader_bind {A B} (m : M A) (f : A -> M B) :
  reader m -> (forall a, reader (f a)) -> reader (bind m f).
Proof.
  intros [Km Rm] Hf. split.
  - apply keeps_bind; [exact Km | intros a; apply Hf].
  - intros s s' E. destruct (Rm s s' E) as [Er El].
    unfold bind. rewrite <- Er, <- El, !Km.
    destruct (res (m s)) as [a|e]; simpl; [|auto].
    destruct (Hf a) as [_ Rf]. destruct (Rf s s' E) as [-> ->]. auto.
Qed.

Lemma reader_for_in {A B} (l : list A) (body : B -> A -> M B) :
  (forall acc x, reader (body acc x)) ->
  forall acc, reader (for_in l acc body).
Proof.
  intros Hb. induction l as [|x l IH]; intros acc; simpl.
  - apply reader_ret.
  - apply reader_bind; auto.
Qed.

#[export] Hint Resolve reader_ret reader_raise reader_lift reader_external
  reader_tpl reader_path reader_getitem : reader.

(** Goals [keeps_self m] and [reader m] for [m] built from the primitives. *)
Ltac keeps_tac :=
  repeat first
    [ solve [auto with keeps]
    | apply keeps_bind; [|intros]
    | apply keeps_for_in; intros
    | apply keeps_except
    | match goal with
      | |- keeps_self (if ?b then _ else _) => destruct b
      | |- keeps_self (match ?x with _ => _ end) => destruct x
      end ].

Ltac reader_tac :=
  repeat first
    [ solve [auto with reader]
    | apply reader_bind; [|intros]
    | apply reader_for_in; intros
    | match goal with
      | |- reader (if ?b then _ else _) => destruct b
      | |- reader (match ?x with _ => _ end) => destruct x
      end ].

Section Method_facts.

Variable W : World.

Lemma reader_resolve_import main d : reader (resolve_import W main d).
Proof.
  unfold resolve_import, isfile, UrlUtils_validate_url, UrlUtils_join_url.
  reader_tac.
Qed.

Lemma reader_load_import main d : reader (load_import W main d).
Proof.
  unfold load_import, load_yaml.
  apply reader_bind; [apply reader_resolve_import | intros [f a]].
  reader_tac.
Qed.

Lemma reader_import_body main ty acc d :
  reader (import_body W main ty acc d).
Proof.
  unfold import_body.
  apply reader_bind; [apply reader_load_import | intros].
  reader_tac.
Qed.

Lemma reader_tpl_imports : reader _tpl_imports.
Proof. unfold _tpl_imports. reader_tac. Qed.

Lemma reader_get_custom_types ty : reader (_get_custom_types W ty).
Proof.
  unfold _get_custom_types, isfile.
  apply reader_bind; [apply reader_tpl_imports | intros imports].
  apply reader_bind.
  - destruct (truthy imports); [|apply reader_ret].
    apply reader_bind; [apply reader_path | intros].
    apply reader_bind; [apply reader_external | intros].
    apply reader_for_in. intros. apply reader_import_body.
  - intros. reader_tac.
Qed.

Lemma reader_get_all_custom_defs : reader (_get_all_custom_defs W).
Proof.
  unfold _get_all_custom_defs.
  apply reader_for_in. intros acc ty.
  apply reader_bind; [apply reader_get_custom_types | intros].
  reader_tac.
Qed.

Lemma keeps_validate_field : keeps_self _validate_field.
Proof.
  unfold _validate_field, _tpl_version, _validate_version. keeps_tac.
Qed.

Lemma keeps_tpl_version : keeps_self _tpl_version.
Proof. unfold _tpl_version. keeps_tac. Qed.

Lemma keeps_tpl_description : keeps_self _tpl_description.
Proof. unfold _tpl_description. keeps_tac. Qed.

Lemma keeps_topology_template : keeps_self (_topology_template W).
Proof.
  unfold _topology_template, _tpl_topology_template.
  apply keeps_bind; [keeps_tac | intros].
  apply keeps_bind; [apply reader_keeps, reader_get_all_custom_defs|intros].
  keeps_tac.
Qed.

End Method_facts.

(** ** Field validation *)

Arguments str_in : simpl never.
Arguments value_in : simpl never.

Lemma check_keys_run (ks : list string) s :
  for_in ks tt (fun _ name =>
    if negb (str_in name SECTIONS)
    then raise (UnknownFieldError "Template" name)
    else ret tt) s
  = {| res := match first_unknown ks with
              | Some name => Raise (UnknownFieldError "Template" name)
              | None => Return tt
              end;
       obj := s; log := [] |}.
Proof.
  unfold first_unknown. induction ks as [|k ks IH]; cbn [for_in find].
  - reflexivity.
  - unfold bind. destruct (str_in k SECTIONS); cbn [negb].
    + cbn [ret res obj log app]. rewrite IH. reflexivity.
    + reflexivity.
Qed.

(** What [_validate_field] does, case by case. *)
Lemma validate_field_run s :
  _validate_field s
  = {| res :=
         match PyDict.lookup DEFINITION_VERSION (self_tpl s) with
         | None =>
             Raise (MissingRequiredFieldError "Template" DEFINITION_VERSION)
         | Some v =>
             if value_in v VALID_TEMPLATE_VERSIONS then
               match first_unknown (PyDict.keys (self_tpl s)) with
               | Some name => Raise (UnknownFieldError "Template" name)
               | None => Return tt
               end
             else Raise (InvalidTemplateVersion v "tosca_simple_yaml_1_0")
         end;
       obj := s; log := [] |}.
Proof.
  unfold _validate_field, _tpl_version, _validate_version, getitem.
  unfold bind, except_KeyError, read. cbn [res obj log].
  destruct (PyDict.lookup DEFINITION_VERSION (self_tpl s)) as [v|].
  - cbn [ret res obj log].
    destruct (value_in v VALID_TEMPLATE_VERSIONS);
      cbn [negb raise ret res obj log app].
    + rewrite check_keys_run. reflexivity.
    + reflexivity.
  - reflexivity.
Qed.

Lemma first_unknown_split pre name post :
  Forall (fun k => str_in k SECTIONS = true) pre ->
  str_in name SECTIONS = false ->
  first_unknown (pre ++ name :: post) = Some name.
Proof.
  unfold first_unknown. intros Hpre Hn.
  induction Hpre as [|k pre Hk _ IH]; simpl.
  - now rewrite Hn.
  - now rewrite Hk.
Qed.

Lemma first_unknown_none ks :
  Forall (fun k => str_in k SECTIONS = true) ks -> first_unknown ks = None.
Proof.
  unfold first_unknown. induction 1 as [|k ks Hk _ IH]; simpl.
  - reflexivity.
  - now rewrite Hk.
Qed.

Lemma valid_version_literal v :
  value_in v VALID_TEMPLATE_VERSIONS = true <->
  v = VStr "tosca_simple_yaml_1_0".
Proof.
  unfold value_in, str_in, VALID_TEMPLATE_VERSIONS.
  destruct v as [|s|l|m]; simpl; try (split; discriminate).
  rewrite orb_false_r. split.
  - intros H. apply String.eqb_eq in H. now subst.
  - intros H. injection H as ->. reflexivity.
Qed.

(** [__init__] stops where [_validate_field] raises. *)
Lemma init_validation_fails (W : World) path a_file parsed_params tpl e :
  YAML_LOADER W path a_file = Return (VMap tpl) ->
  res (_validate_field (loaded tpl path a_file parsed_params)) = Raise e ->
  __init__ W path a_file parsed_params
  = (Raise e, [Call_YAML_LOADER path a_file]).
Proof.
  intros HL HV. unfold __init__. rewrite HL. unfold init_rest.
  match goal with
  | |- context [bind ?m ?f ?s] =>
      destruct (bind_Raise m f s e HV) as (R & _ & L)
  end.
  rewrite R, L. rewrite validate_field_run. reflexivity.
Qed.

(** C6, as stated, fails: a document with a key outside the schema set and
    no version key is rejected with [MissingRequiredFieldError], because
    the version is checked before the keys are. *)
Lemma unknown_field_without_version :
  PyDict.keys Sample.tpl_unknown_only = [] ++ "foo" :: [] /\
  str_in "foo" SECTIONS = false /\
  __init__ (Sample.world [("/cwd/root.yaml", VMap Sample.tpl_unknown_only)]
              [] []) "root.yaml" true VNull
  = (Raise (MissingRequiredFieldError "Template" DEFINITION_VERSION),
     [Call_YAML_LOADER "root.yaml" true]) /\
  res (_validate_field (loaded Sample.tpl_unknown_only "root.yaml" true VNull))
  <> Raise (UnknownFieldError "Template" "foo").
Proof.
  repeat split; try reflexivity.
  rewrite validate_field_run. simpl. discriminate.
Qed.

(** C6 (amended).  For a document whose schema-version key is present with
    the accepted value and that has a top-level key outside the fixed
    schema-key set, field validation, and with it the load, fails with
    [UnknownFieldError] naming the first such key in document order,
    whatever keys follow it; nothing but the root document was loaded. *)
Theorem unknown_field_names_first_key
    (W : World) path a_file parsed_params tpl pre name post :
  YAML_LOADER W path a_file = Return (VMap tpl) ->
  PyDict.lookup DEFINITION_VERSION tpl = Some (VStr "tosca_simple_yaml_1_0") ->
  PyDict.keys tpl = pre ++ name :: post ->
  Forall (fun k => str_in k SECTIONS = true) pre ->
  str_in name SECTIONS = false ->
  res (_validate_field (loaded tpl path a_file parsed_params))
  = Raise (UnknownFieldError "Template" name) /\
  __init__ W path a_file parsed_params
  = (Raise (UnknownFieldError "Template" name),
     [Call_YAML_LOADER path a_file]).
Proof.
  intros HL HV HK Hpre Hname.
  assert (R : res (_validate_field (loaded tpl path a_file parsed_params))
              = Raise (UnknownFieldError "Template" name)).
  { rewrite validate_field_run. cbn [res loaded self_tpl].
    rewrite HV, HK, (first_unknown_split pre name post Hpre Hname).
    reflexivity. }
  split; [exact R|].
  now apply init_validation_fails with (tpl := tpl).
Qed.

Lemma unknown_field_names_first_key_witness :
  res (_validate_field (loaded Sample.tpl_two_unknown "root.yaml" true VNull))
  = Raise (UnknownFieldError "Template" "foo") /\
  __init__ (Sample.world [("/cwd/root.yaml", VMap Sample.tpl_two_unknown)]
              [] []) "root.yaml" true VNull
  = (Raise (UnknownFieldError "Template" "foo"),
     [Call_YAML_LOADER "root.yaml" true]).
Proof.
  apply (unknown_field_names_first_key
           (Sample.world [("/cwd/root.yaml", VMap Sample.tpl_two_unknown)]
              [] [])
           "root.yaml" true VNull Sample.tpl_two_unknown
           [DEFINITION_VERSION] "foo" [DESCRIPTION; "baz"]).
  - reflexivity.
  - reflexivity.
  - reflexivity.
  - constructor; [reflexivity | constructor].
  - reflexivity.
Defined.

(** C7.  Field validation fails with [MissingRequiredFieldError] naming the
    schema-version key when that key is absent, and with
    [InvalidTemplateVersion] citing the value and the accepted set when the
    key is present with a value outside the accepted set, which holds the
    single literal [tosca_simple_yaml_1_0]; with the key present and valid
    and every key in the schema set, validation returns, having changed
    nothing and called nothing. *)
Theorem validate_field_version (s : ToscaTemplate) :
  (PyDict.lookup DEFINITION_VERSION (self_tpl s) = None ->
   res (_validate_field s)
   = Raise (MissingRequiredFieldError "Template" DEFINITION_VERSION)) /\
  (forall v,
     PyDict.lookup DEFINITION_VERSION (self_tpl s) = Some v ->
     value_in v VALID_TEMPLATE_VERSIONS = false ->
     res (_validate_field s)
     = Raise (InvalidTemplateVersion v "tosca_simple_yaml_1_0")) /\
  (forall v,
     PyDict.lookup DEFINITION_VERSION (self_tpl s) = Some v ->
     value_in v VALID_TEMPLATE_VERSIONS = true ->
     Forall (fun k => str_in k SECTIONS = true) (PyDict.keys (self_tpl s)) ->
     _validate_field s = {| res := Return tt; obj := s; log := [] |}) /\
  (forall v,
     value_in v VALID_TEMPLATE_VERSIONS = true <->
     v = VStr "tosca_simple_yaml_1_0").
Proof.
  rewrite validate_field_run. cbn [res].
  split; [|split; [|split]].
  - intros ->. reflexivity.
  - intros v -> ->. reflexivity.
  - intros v -> -> HK. now rewrite (first_unknown_none _ HK).
  - apply valid_version_literal.
Qed.

Lemma validate_field_version_witness :
  res (_validate_field (loaded Sample.tpl_unknown_only "root.yaml" true VNull))
  = Raise (MissingRequiredFieldError "Template" DEFINITION_VERSION) /\
  res (_validate_field (loaded Sample.tpl_bad_version "root.yaml" true VNull))
  = Raise (InvalidTemplateVersion (VStr "tosca_simple_yaml_9_9")
             "tosca_simple_yaml_1_0") /\
  _validate_field (loaded Sample.tpl_minimal "root.yaml" true VNull)
  = {| res := Return tt;
       obj := loaded Sample.tpl_minimal "root.yaml" true VNull;
       log := [] |}.
Proof.
  split; [|split].
  - apply (proj1 (validate_field_version
                    (loaded Sample.tpl_unknown_only "root.yaml" true VNull))).
    reflexivity.
  - apply (proj1 (proj2 (validate_field_version
                    (loaded Sample.tpl_bad_version "root.yaml" true VNull)))
             (VStr "tosca_simple_yaml_9_9")); reflexivity.
  - apply (proj1 (proj2 (proj2 (validate_field_version
                    (loaded Sample.tpl_minimal "root.yaml" true VNull))))
             (VStr "tosca_simple_yaml_1_0")).
    + reflexivity.
    + reflexivity.
    + repeat constructor.
Defined.

(** ** Import resolution *)

Section Import_facts.

Variable W : World.

(** The three ways a locally-rooted template resolves an import. *)
Lemma resolve_import_local d s :
  resolve_import W true d s
  = let full_path :=
      os_path_join (os_path_dirname (os_path_abspath W (self_path s))) d in
    if os_path_isfile W d then
      {| res := Return (d, true); obj := s; log := [Call_isfile d] |}
    else
      {| res := Return (if os_path_isfile W full_path
                        then (full_path, true) else (d, false));
         obj := s; log := [Call_isfile d; Call_isfile full_path] |}.
Proof.
  unfold resolve_import, isfile, bind, external, read.
  cbn [res obj log].
  destruct (os_path_isfile W d); cbn [ret res obj log app].
  - reflexivity.
  - destruct (os_path_isfile W _); reflexivity.
Qed.

(** The three ways a remotely-rooted one does. *)
Lemma resolve_import_remote d s :
  resolve_import W false d s
  = if validate_url W d then
      {| res := Return (d, false); obj := s; log := [Call_validate_url d] |}
    else if os_path_isabs d then
      {| res := Raise (ImportError ImportError_message); obj := s;
         log := [Call_validate_url d] |}
    else
      {| res := match join_url W (self_path s) d with
                | Return def_file => Return (def_file, false)
                | Raise e => Raise e
                end;
         obj := s;
         log := [Call_validate_url d; Call_join_url (self_path s) d] |}.
Proof.
  unfold resolve_import, UrlUtils_validate_url, UrlUtils_join_url, bind,
    external, read.
  cbn [res obj log].
  destruct (validate_url W d); cbn [negb ret res obj log app].
  - reflexivity.
  - destruct (os_path_isabs d); [reflexivity|].
    destruct (join_url W (self_path s) d); reflexivity.
Qed.

(** Loading follows resolution, with the file and the flag it chose. *)
Lemma load_import_run main d s :
  load_import W main d s
  = let r := resolve_import W main d s in
    match res r with
    | Return (def_file, a_file) =>
        {| res := YAML_LOADER W def_file a_file; obj := s;
           log := log r ++ [Call_YAML_LOADER def_file a_file] |}
    | Raise e => {| res := Raise e; obj := s; log := log r |}
    end.
Proof.
  unfold load_import, bind.
  rewrite (proj1 (reader_resolve_import W main d) s).
  cbn zeta. destruct (res (resolve_import W main d s)) as [[f a]|e];
    reflexivity.
Qed.

Lemma import_body_run main ty acc d s :
  import_body W main ty acc d s
  = let r := load_import W main d s in
    {| res := match res r with
              | Return doc => merge_outer ty acc doc
              | Raise e => Raise e
              end;
       obj := s; log := log r |}.
Proof.
  unfold import_body, bind, merge_outer.
  rewrite (proj1 (reader_load_import W main d) s). cbn zeta.
  destruct (res (load_import W main d s)) as [doc|e]; [|reflexivity].
  unfold lift. cbn [res obj log].
  destruct (value_get doc ty) as [outer|e]; cbn [res obj log].
  - destruct (truthy outer); cbn [ret res obj log];
      now rewrite ?app_nil_r.
  - now rewrite app_nil_r.
Qed.

Lemma tpl_imports_run s :
  _tpl_imports s
  = {| res := Return (PyDict.get IMPORTS (self_tpl s)); obj := s;
       log := [] |}.
Proof.
  unfold _tpl_imports, bind, read, getitem, PyDict.get. cbn [res obj log].
  destruct (PyDict.contains IMPORTS (self_tpl s)) eqn:C.
  - apply PyDictFacts.contains_lookup in C. destruct C as [v ->].
    reflexivity.
  - destruct (PyDict.lookup IMPORTS (self_tpl s)) eqn:L; [|reflexivity].
    assert (PyDict.contains IMPORTS (self_tpl s) = true)
      by (apply PyDictFacts.contains_lookup; eauto).
    congruence.
Qed.

Lemma truthy_iter v : truthy v = false -> iter v = [].
Proof.
  destruct v as [|s|l|m]; simpl; try reflexivity.
  - destruct s; [reflexivity | discriminate].
  - destruct l; [reflexivity | discriminate].
  - destruct m; [reflexivity | discriminate].
Qed.

(** [_get_custom_types], taken apart: when there are imports, one check
    whether the root path is a file; the loop over the imports with that
    answer; the root's own definitions. *)
Lemma get_custom_types_run ty s :
  _get_custom_types W ty s
  = let r :=
      for_in (imports_of (self_tpl s)) []
        (import_body W (os_path_isfile W (self_path s)) ty) s in
    {| res := match res r with
              | Return custom_defs => merge_inner ty (self_tpl s) custom_defs
              | Raise e => Raise e
              end;
       obj := s;
       log := (if truthy (PyDict.get IMPORTS (self_tpl s))
               then [Call_isfile (self_path s)] else []) ++ log r |}.
Proof.
  unfold _get_custom_types, imports_of.
  unfold bind at 1. rewrite tpl_imports_run. cbn [res obj log app].
  set (imports := PyDict.get IMPORTS (self_tpl s)).
  set (main := os_path_isfile W (self_path s)).
  assert (K : obj (for_in (iter imports) [] (import_body W main ty) s) = s).
  { apply keeps_for_in. intros. apply reader_keeps, reader_import_body. }
  unfold merge_inner.
  destruct (truthy imports) eqn:T.
  - unfold bind, read, isfile, external, lift. cbn [res obj log app].
    fold main. rewrite K.
    destruct (res (for_in (iter imports) [] (import_body W main ty) s))
      as [cd|e]; cbn [res obj log app]; [|reflexivity].
    destruct (truthy (py_or (PyDict.get ty (self_tpl s)) (VMap [])));
      cbn [ret res obj log]; now rewrite ?app_nil_r.
  - rewrite (truthy_iter _ T). unfold bind, read, lift.
    cbn [for_in ret res obj log app].
    destruct (truthy (py_or (PyDict.get ty (self_tpl s)) (VMap [])));
      reflexivity.
Qed.

End Import_facts.

Lemma for_in_stuck {A B} (body : B -> A -> M B) s x :
  (forall acc y, keeps_self (body acc y)) ->
  (forall acc, exists e, res (body acc x s) = Raise e) ->
  forall l acc, In x l -> exists e, res (for_in l acc body s) = Raise e.
Proof.
  intros K H. induction l as [|y l IH]; intros acc I; [destruct I|].
  cbn [for_in].
  destruct (res (body acc y s)) as [acc'|e] eqn:E.
  - destruct (bind_Return (body acc y) (fun a => for_in l a body) s acc' E)
      as (R & _). rewrite R, K.
    destruct I as [->|I]; [|now apply IH].
    destruct (H acc) as [e He]. congruence.
  - exists e.
    now destruct (bind_Raise (body acc y) (fun a => for_in l a body) s e E).
Qed.

Lemma iter_truthy v d l : iter v = d :: l -> truthy v = true.
Proof.
  intros H. destruct (truthy v) eqn:T; [reflexivity|].
  apply truthy_iter in T. congruence.
Qed.

(** C3, as stated, fails: a template fetched from a URL, constructed with
    the is-local flag off, whose URL string also names a regular file
    under the working directory has its absolute import loaded from the
    local filesystem.  The merge asks the filesystem about the root path,
    not the flag, and takes the local branch: no [ImportError]. *)
Lemma remote_root_loads_absolute_import :
  YAML_LOADER Sample.shadow_world "http://host/abs.yaml" false
  = Return (VMap Sample.tpl_shadow_abs) /\
  self_a_file Sample.shadow_abs_self = false /\
  imports_of (self_tpl Sample.shadow_abs_self) = ["/etc/types.yaml"] /\
  validate_url Sample.shadow_world "/etc/types.yaml" = false /\
  os_path_isabs "/etc/types.yaml" = true /\
  _get_custom_types Sample.shadow_world NODE_TYPES Sample.shadow_abs_self
  = {| res := Return [("X", VStr "A"); ("Y", VStr "A")];
       obj := Sample.shadow_abs_self;
       log := [Call_isfile "http://host/abs.yaml";
               Call_isfile "/etc/types.yaml";
               Call_YAML_LOADER "/etc/types.yaml" true] |}.
Proof. repeat split. Qed.

(** C3 (amended).  For a template whose root path is no existing regular
    file when the merge checks it -- the is-local flag is not consulted --
    and an import that is no valid URL but an absolute path, resolving the
    import raises [ImportError] after the URL check alone, so no document
    is loaded for it; the category merge of a template with such an import
    fails, and with the import in first place it fails with that
    [ImportError] before anything is loaded. *)
Theorem remote_root_rejects_absolute_import (W : World) s ty d :
  os_path_isfile W (self_path s) = false ->
  validate_url W d = false ->
  os_path_isabs d = true ->
  (forall acc,
     import_body W (os_path_isfile W (self_path s)) ty acc d s
     = {| res := Raise (ImportError ImportError_message); obj := s;
          log := [Call_validate_url d] |}) /\
  (In d (imports_of (self_tpl s)) ->
   exists e, res (_get_custom_types W ty s) = Raise e) /\
  (forall post,
     imports_of (self_tpl s) = d :: post ->
     _get_custom_types W ty s
     = {| res := Raise (ImportError ImportError_message); obj := s;
          log := [Call_isfile (self_path s); Call_validate_url d] |}).
Proof.
  intros Hroot Hurl Habs.
  assert (Body : forall acc,
             import_body W false ty acc d s
             = {| res := Raise (ImportError ImportError_message); obj := s;
                  log := [Call_validate_url d] |}).
  { intros acc. rewrite import_body_run, load_import_run.
    rewrite resolve_import_remote, Hurl, Habs. reflexivity. }
  rewrite Hroot. split; [exact Body | split].
  - intros I. rewrite get_custom_types_run, Hroot. cbn zeta. cbn [res].
    assert (S : exists e,
               res (for_in (imports_of (self_tpl s)) []
                      (import_body W false ty) s) = Raise e).
    { apply for_in_stuck with (x := d); [| |exact I].
      - intros. apply reader_keeps, reader_import_body.
      - intros acc. rewrite Body. eexists. reflexivity. }
    destruct S as [e He]. rewrite He. eauto.
  - intros post I. rewrite get_custom_types_run, Hroot, I. cbn zeta.
    unfold imports_of in I. rewrite (iter_truthy _ _ _ I).
    cbn [for_in]. unfold bind. rewrite Body. reflexivity.
Qed.

Lemma remote_root_rejects_absolute_import_witness :
  _get_custom_types Sample.remote_world NODE_TYPES Sample.remote_abs_self
  = {| res := Raise (ImportError ImportError_message);
       obj := Sample.remote_abs_self;
       log := [Call_isfile "https://host/abs.yaml";
               Call_validate_url "/etc/types.yaml"] |}.
Proof.
  apply (proj2 (proj2 (remote_root_rejects_absolute_import
                         Sample.remote_world Sample.remote_abs_self
                         NODE_TYPES "/etc/types.yaml"
                         eq_refl eq_refl eq_refl)) []).
  reflexivity.
Defined.

(** The loop of a merge takes its imports in turn and stops at the first
    whose turn raises: its log is the calls of the first [n] imports, all
    of them when it returns. *)
Lemma for_in_log_prefix (W : World) main ty s ds :
  forall acc,
  exists n,
    n <= List.length ds /\
    log (for_in ds acc (import_body W main ty) s)
    = flat_map (fun d => log (load_import W main d s)) (firstn n ds) /\
    (forall r,
       res (for_in ds acc (import_body W main ty) s) = Return r ->
       n = List.length ds).
Proof.
  induction ds as [|d ds IH]; intros acc.
  - exists 0. repeat split; auto.
  - cbn [for_in].
    assert (Lb : log (import_body W main ty acc d s)
                 = log (load_import W main d s))
      by (rewrite import_body_run; reflexivity).
    destruct (res (import_body W main ty acc d s)) as [acc'|e] eqn:E.
    + destruct (bind_Return (import_body W main ty acc d)
                  (fun a => for_in ds a (import_body W main ty)) s _ E)
        as (R & _ & L).
      rewrite (proj1 (reader_import_body W main ty acc d) s) in R, L.
      destruct (IH acc') as (n & Hn & Hl & Hr).
      exists (S n). cbn [firstn flat_map List.length].
      rewrite L, Hl, Lb. split; [lia | split; [reflexivity|]].
      intros r Hres. rewrite R in Hres. f_equal. now apply (Hr r).
    + destruct (bind_Raise (import_body W main ty acc d)
                  (fun a => for_in ds a (import_body W main ty)) s _ E)
        as (R & _ & L).
      exists 1. cbn [firstn flat_map List.length].
      rewrite L, Lb, app_nil_r. split; [lia | split; [reflexivity|]].
      intros r Hres. rewrite R in Hres. discriminate.
Qed.

Lemma outcome_match_returns {A B : Type} (o : outcome A)
    (f : A -> outcome B) (b : B) (P : Prop) :
  match o with Return a => f a | Raise e => Raise e end = Return b ->
  (forall a, o = Return a -> P) -> P.
Proof. destruct o as [a|e]; [eauto | discriminate]. Qed.

Lemma merge_log_prefix (W : World) ty s :
  exists n,
    n <= List.length (imports_of (self_tpl s)) /\
    log (_get_custom_types W ty s)
    = root_check s
      ++ flat_map
           (fun d => log (load_import W (os_path_isfile W (self_path s)) d s))
           (firstn n (imports_of (self_tpl s))) /\
    (forall r,
       res (_get_custom_types W ty s) = Return r ->
       n = List.length (imports_of (self_tpl s))).
Proof.
  rewrite get_custom_types_run. cbn zeta. cbn [res log].
  destruct (for_in_log_prefix W (os_path_isfile W (self_path s)) ty s
              (imports_of (self_tpl s)) []) as (n & Hn & Hl & Hr).
  exists n. split; [exact Hn | split].
  - unfold root_check. apply f_equal. exact Hl.
  - intros r H. exact (outcome_match_returns _ _ _ _ H Hr).
Qed.

Lemma load_import_local_log (W : World) d s :
  log (load_import W true d s) = local_import_calls W (self_path s) d.
Proof.
  rewrite load_import_run, resolve_import_local. unfold local_import_calls.
  cbn zeta. destruct (os_path_isfile W d); [reflexivity|].
  destruct (os_path_isfile W _); reflexivity.
Qed.

Lemma load_import_remote_log (W : World) d s :
  log (load_import W false d s) = remote_import_calls W (self_path s) d.
Proof.
  rewrite load_import_run, resolve_import_remote. unfold remote_import_calls.
  destruct (validate_url W d); [reflexivity|].
  destruct (os_path_isabs d); [reflexivity|].
  destruct (join_url W (self_path s) d); reflexivity.
Qed.

Lemma import_body_located (W : World) main ty acc d s def_file a_file :
  res (resolve_import W main d s) = Return (def_file, a_file) ->
  import_body W main ty acc d s
  = {| res := load_and_merge W ty acc def_file a_file; obj := s;
       log := log (load_import W main d s) |}.
Proof.
  intros H. rewrite import_body_run. cbn zeta.
  rewrite load_import_run. cbn zeta. rewrite H. reflexivity.
Qed.

(** C4, as stated, fails: a template constructed with the is-local flag
    set and read from a path that is no regular file does not look for its
    import on the filesystem.  The import names an existing file as given;
    the merge checks it as a URL, joins it to the root path, and raises
    what the join raises. *)
Lemma local_root_import_not_searched :
  YAML_LOADER Sample.fifo_world "/dev/stdin" true
  = Return (VMap Sample.tpl_fifo) /\
  self_a_file Sample.fifo_self = true /\
  imports_of (self_tpl Sample.fifo_self) = ["b.yaml"] /\
  os_path_isfile Sample.fifo_world "b.yaml" = true /\
  YAML_LOADER Sample.fifo_world "b.yaml" true
  = Return (VMap Sample.types_B) /\
  _get_custom_types Sample.fifo_world NODE_TYPES Sample.fifo_self
  = {| res := Raise ValueError;
       obj := Sample.fifo_self;
       log := [Call_isfile "/dev/stdin"; Call_validate_url "b.yaml";
               Call_join_url "/dev/stdin" "b.yaml"] |}.
Proof. repeat split. Qed.

(** C4 (amended).  For a template whose root path is an existing regular
    file when the merge checks it -- the is-local flag is not consulted --
    the merge is the loop over the imports on the local branch and, at
    each turn, an import that names an existing file as given is loaded as
    given and as a file; otherwise, if joined to the directory of the
    root's absolute path it names an existing file, that path is loaded as
    a file; otherwise the import is loaded as given with the non-local
    flag.  The calls of the merge are the check of the root path and, for
    each import it gets to, in order, these file checks and this one load:
    no URL check is made. *)
Theorem local_root_import_resolution (W : World) s ty :
  os_path_isfile W (self_path s) = true ->
  let full_path d :=
    os_path_join (os_path_dirname (os_path_abspath W (self_path s))) d in
  let r :=
    for_in (imports_of (self_tpl s)) [] (import_body W true ty) s in
  (res (_get_custom_types W ty s)
   = match res r with
     | Return custom_defs => merge_inner ty (self_tpl s) custom_defs
     | Raise e => Raise e
     end /\
   log (_get_custom_types W ty s) = root_check s ++ log r) /\
  (forall acc d,
     os_path_isfile W d = true ->
     import_body W true ty acc d s
     = {| res := load_and_merge W ty acc d true; obj := s;
          log := [Call_isfile d; Call_YAML_LOADER d true] |}) /\
  (forall acc d,
     os_path_isfile W d = false -> os_path_isfile W (full_path d) = true ->
     import_body W true ty acc d s
     = {| res := load_and_merge W ty acc (full_path d) true; obj := s;
          log := [Call_isfile d; Call_isfile (full_path d);
                  Call_YAML_LOADER (full_path d) true] |}) /\
  (forall acc d,
     os_path_isfile W d = false -> os_path_isfile W (full_path d) = false ->
     import_body W true ty acc d s
     = {| res := load_and_merge W ty acc d false; obj := s;
          log := [Call_isfile d; Call_isfile (full_path d);
                  Call_YAML_LOADER d false] |}) /\
  (exists n,
     n <= List.length (imports_of (self_tpl s)) /\
     log (_get_custom_types W ty s)
     = root_check s
       ++ flat_map (local_import_calls W (self_path s))
            (firstn n (imports_of (self_tpl s))) /\
     (forall r',
        res (_get_custom_types W ty s) = Return r' ->
        n = List.length (imports_of (self_tpl s)))) /\
  Forall no_url_call (log (_get_custom_types W ty s)).
Proof.
  intros Hroot full_path r. subst full_path r.
  assert (Log : exists n,
             n <= List.length (imports_of (self_tpl s)) /\
             log (_get_custom_types W ty s)
             = root_check s
               ++ flat_map (local_import_calls W (self_path s))
                    (firstn n (imports_of (self_tpl s))) /\
             (forall r',
                res (_get_custom_types W ty s) = Return r' ->
                n = List.length (imports_of (self_tpl s)))).
  { destruct (merge_log_prefix W ty s) as (n & Hn & Hl & Hr).
    exists n. rewrite Hl, Hroot. split; [exact Hn | split; [|exact Hr]].
    f_equal. apply flat_map_ext. intros d. apply load_import_local_log. }
  split; [|split; [|split; [|split; [|split]]]].
  - rewrite get_custom_types_run, Hroot. split; reflexivity.
  - intros acc d Hd.
    assert (R : res (resolve_import W true d s) = Return (d, true))
      by (rewrite resolve_import_local; cbn zeta; rewrite Hd; reflexivity).
    rewrite (import_body_located W true ty acc d s d true R),
      load_import_local_log.
    unfold local_import_calls. rewrite Hd. reflexivity.
  - intros acc d Hd Hf.
    assert (R : res (resolve_import W true d s)
                = Return (os_path_join
                            (os_path_dirname
                               (os_path_abspath W (self_path s))) d, true))
      by (rewrite resolve_import_local; cbn zeta; rewrite Hd, Hf;
          reflexivity).
    rewrite (import_body_located W true ty acc d s _ true R),
      load_import_local_log.
    unfold local_import_calls. rewrite Hd, Hf. reflexivity.
  - intros acc d Hd Hf.
    assert (R : res (resolve_import W true d s) = Return (d, false))
      by (rewrite resolve_import_local; cbn zeta; rewrite Hd, Hf;
          reflexivity).
    rewrite (import_body_located W true ty acc d s d false R),
      load_import_local_log.
    unfold local_import_calls. rewrite Hd, Hf. reflexivity.
  - exact Log.
  - destruct Log as (n & _ & -> & _). apply Forall_app. split.
    + unfold root_check. destruct (truthy _); repeat constructor.
    + apply Forall_flat_map, Forall_forall. intros d _.
      unfold local_import_calls.
      destruct (os_path_isfile W d); [repeat constructor|].
      destruct (os_path_isfile W
                  (os_path_join
                     (os_path_dirname (os_path_abspath W (self_path s))) d));
        repeat constructor.
Qed.

Lemma local_root_import_resolution_witness :
  import_body Sample.local_world true NODE_TYPES [] "b.yaml"
    Sample.local_self
  = {| res := Return [("X", VStr "B")]; obj := Sample.local_self;
       log := [Call_isfile "b.yaml"; Call_YAML_LOADER "b.yaml" true] |} /\
  import_body Sample.local_world true NODE_TYPES [] "types.yaml"
    Sample.local_self
  = {| res := Return [("X", VStr "A"); ("Y", VStr "A")];
       obj := Sample.local_self;
       log := [Call_isfile "types.yaml"; Call_isfile "/cwd/a/types.yaml";
               Call_YAML_LOADER "/cwd/a/types.yaml" true] |} /\
  import_body Sample.local_world true NODE_TYPES [] "http://host/c.yaml"
    Sample.local_self
  = {| res := Return []; obj := Sample.local_self;
       log := [Call_isfile "http://host/c.yaml";
               Call_isfile "/cwd/a/http://host/c.yaml";
               Call_YAML_LOADER "http://host/c.yaml" false] |} /\
  Forall no_url_call
    (log (_get_custom_types Sample.local_world NODE_TYPES
            Sample.local_self)).
Proof.
  destruct (local_root_import_resolution Sample.local_world
              Sample.local_self NODE_TYPES eq_refl)
    as (_ & H1 & H2 & H3 & _ & H4).
  split; [|split; [|split]].
  - exact (H1 [] "b.yaml" eq_refl).
  - exact (H2 [] "types.yaml" eq_refl eq_refl).
  - exact (H3 [] "http://host/c.yaml" eq_refl eq_refl).
  - exact H4.
Defined.

(** C5, as stated, fails: a template fetched from a URL, constructed with
    the is-local flag off, whose URL string also names a regular file
    under the working directory has its relative import looked up on the
    filesystem.  The import is not joined against the root's URL, and what
    is loaded is a local file, with the is-file flag, not the document the
    joined URL serves. *)
Lemma remote_root_import_not_joined :
  YAML_LOADER Sample.shadow_world "http://host/rel.yaml" false
  = Return (VMap Sample.tpl_shadow_rel) /\
  self_a_file Sample.shadow_rel_self = false /\
  imports_of (self_tpl Sample.shadow_rel_self) = ["types.yaml"] /\
  validate_url Sample.shadow_world "types.yaml" = false /\
  os_path_isabs "types.yaml" = false /\
  join_url Sample.shadow_world "http://host/rel.yaml" "types.yaml"
  = Return "http://host/types.yaml" /\
  YAML_LOADER Sample.shadow_world "http://host/types.yaml" false
  = Return (VMap Sample.types_A) /\
  _get_custom_types Sample.shadow_world NODE_TYPES Sample.shadow_rel_self
  = {| res := Return [("X", VStr "B")];
       obj := Sample.shadow_rel_self;
       log := [Call_isfile "http://host/rel.yaml"; Call_isfile "types.yaml";
               Call_isfile "/cwd/http://host/types.yaml";
               Call_YAML_LOADER "/cwd/http://host/types.yaml" true] |}.
Proof. repeat split. Qed.

(** C5 (amended).  For a template whose root path is no existing regular
    file when the merge checks it -- the is-local flag is not consulted --
    the merge is the loop over the imports on the remote branch and, at
    each turn, an import that is a valid URL is loaded as given with the
    non-local flag; an import that is no valid URL and no absolute path is
    joined against the root's own location: where the join gives a URL,
    that URL is loaded with the non-local flag, and where the join raises
    (the root's location is no URL), the merge raises the same and nothing
    is loaded for the import.  The calls of the merge are the check of the
    root path and, for each import it gets to, in order, the URL check,
    the join where one is made, and the load. *)
Theorem remote_root_import_resolution (W : World) s ty :
  os_path_isfile W (self_path s) = false ->
  let r :=
    for_in (imports_of (self_tpl s)) [] (import_body W false ty) s in
  (res (_get_custom_types W ty s)
   = match res r with
     | Return custom_defs => merge_inner ty (self_tpl s) custom_defs
     | Raise e => Raise e
     end /\
   log (_get_custom_types W ty s) = root_check s ++ log r) /\
  (forall acc d,
     validate_url W d = true ->
     import_body W false ty acc d s
     = {| res := load_and_merge W ty acc d false; obj := s;
          log := [Call_validate_url d; Call_YAML_LOADER d false] |}) /\
  (forall acc d url,
     validate_url W d = false -> os_path_isabs d = false ->
     join_url W (self_path s) d = Return url ->
     import_body W false ty acc d s
     = {| res := load_and_merge W ty acc url false; obj := s;
          log := [Call_validate_url d; Call_join_url (self_path s) d;
                  Call_YAML_LOADER url false] |}) /\
  (forall acc d e,
     validate_url W d = false -> os_path_isabs d = false ->
     join_url W (self_path s) d = Raise e ->
     import_body W false ty acc d s
     = {| res := Raise e; obj := s;
          log := [Call_validate_url d; Call_join_url (self_path s) d] |}) /\
  (exists n,
     n <= List.length (imports_of (self_tpl s)) /\
     log (_get_custom_types W ty s)
     = root_check s
       ++ flat_map (remote_import_calls W (self_path s))
            (firstn n (imports_of (self_tpl s))) /\
     (forall r',
        res (_get_custom_types W ty s) = Return r' ->
        n = List.length (imports_of (self_tpl s)))).
Proof.
  intros Hroot r. subst r.
  split; [|split; [|split; [|split]]].
  - rewrite get_custom_types_run, Hroot. split; reflexivity.
  - intros acc d Hu.
    rewrite (import_body_located W false ty acc d s d false),
      load_import_remote_log; unfold remote_import_calls;
      rewrite ?resolve_import_remote, Hu; reflexivity.
  - intros acc d url Hu Ha Hj.
    rewrite (import_body_located W false ty acc d s url false),
      load_import_remote_log; unfold remote_import_calls;
      rewrite ?resolve_import_remote, Hu, Ha, Hj; reflexivity.
  - intros acc d e Hu Ha Hj.
    rewrite import_body_run, load_import_run, resolve_import_remote.
    rewrite Hu, Ha, Hj. reflexivity.
  - destruct (merge_log_prefix W ty s) as (n & Hn & Hl & Hr).
    exists n. rewrite Hl, Hroot. split; [exact Hn | split; [|exact Hr]].
    f_equal. apply flat_map_ext. intros d. apply load_import_remote_log.
Qed.

Lemma remote_root_import_resolution_witness :
  import_body Sample.remote_world false NODE_TYPES [] "http://host/c.yaml"
    Sample.remote_self
  = {| res := Return []; obj := Sample.remote_self;
       log := [Call_validate_url "http://host/c.yaml";
               Call_YAML_LOADER "http://host/c.yaml" false] |} /\
  import_body Sample.remote_world false NODE_TYPES [] "types.yaml"
    Sample.remote_self
  = {| res := Return [("X", VStr "A"); ("Y", VStr "A")];
       obj := Sample.remote_self;
       log := [Call_validate_url "types.yaml";
               Call_join_url "https://host/root.yaml" "types.yaml";
               Call_YAML_LOADER "https://host/types.yaml" false] |} /\
  import_body Sample.fifo_world false NODE_TYPES [] "b.yaml"
    Sample.fifo_self
  = {| res := Raise ValueError; obj := Sample.fifo_self;
       log := [Call_validate_url "b.yaml";
               Call_join_url "/dev/stdin" "b.yaml"] |}.
Proof.
  destruct (remote_root_import_resolution Sample.remote_world
              Sample.remote_self NODE_TYPES eq_refl)
    as (_ & H1 & H2 & _ & _).
  destruct (remote_root_import_resolution Sample.fifo_world
              Sample.fifo_self NODE_TYPES eq_refl)
    as (_ & _ & _ & H3 & _).
  split; [|split].
  - exact (H1 [] "http://host/c.yaml" eq_refl).
  - exact (H2 [] "types.yaml" "https://host/types.yaml"
             eq_refl eq_refl eq_refl).
  - exact (H3 [] "b.yaml" ValueError eq_refl eq_refl eq_refl).
Defined.

(** ** The category merge *)

Lemma merge_outer_section ty acc doc :
  is_section (PyDict.get ty doc) = true ->
  merge_outer ty acc (VMap doc)
  = Return (PyDict.update acc (section ty doc)).
Proof.
  unfold merge_outer, section. cbn [value_get].
  destruct (PyDict.get ty doc) as [|x|l|[|e m]]; try discriminate;
    reflexivity.
Qed.

Lemma merge_inner_section ty tpl acc :
  is_section (PyDict.get ty tpl) = true ->
  merge_inner ty tpl acc = Return (PyDict.update acc (section ty tpl)).
Proof.
  unfold merge_inner, section, py_or.
  destruct (PyDict.get ty tpl) as [|x|l|[|e m]]; try discriminate;
    reflexivity.
Qed.

(** The loop over the imports, when each import loads a mapping whose
    section for the category is a mapping or missing. *)
Lemma for_in_imports (W : World) main ty s ds docs :
  Forall2 (fun d doc => res (load_import W main d s) = Return (VMap doc))
    ds docs ->
  Forall (fun doc => is_section (PyDict.get ty doc) = true) docs ->
  forall acc,
    res (for_in ds acc (import_body W main ty) s)
    = Return (fold_left
                (fun acc doc => PyDict.update acc (section ty doc)) docs acc).
Proof.
  induction 1 as [|d doc ds docs Hd _ IH]; intros Hs acc.
  - reflexivity.
  - inversion Hs as [|? ? Hdoc Hdocs]; subst. cbn [for_in fold_left].
    assert (E : res (import_body W main ty acc d s)
                = Return (PyDict.update acc (section ty doc))).
    { rewrite import_body_run. cbn zeta. cbn [res]. rewrite Hd.
      now apply merge_outer_section. }
    destruct (bind_Return (import_body W main ty acc d)
                (fun a => for_in ds a (import_body W main ty)) s _ E)
      as (R & _).
    rewrite R, (proj1 (reader_import_body W main ty acc d) s).
    now apply IH.
Qed.

Lemma lookup_merge_skip ty name post :
  Forall (fun doc => PyDict.lookup name (section ty doc) = None) post ->
  forall acc,
    PyDict.lookup name
      (fold_left (fun acc doc => PyDict.update acc (section ty doc)) post acc)
    = PyDict.lookup name acc.
Proof.
  induction 1 as [|doc post Hdoc _ IH]; intros acc; cbn [fold_left].
  - reflexivity.
  - rewrite IH, PyDictFacts.lookup_update. now rewrite Hdoc.
Qed.

(** C1.  Where every import resolves and loads a mapping, and the sections
    for the category are mappings where present, the category merge
    returns the overwrite-merge of the imports' sections, folded in
    declaration order, overwritten last by the root's inline section: a
    name the root defines inline maps to the inline definition, and a name
    only imports define maps to the definition of the last import that
    defines it. *)
Theorem merged_registry_precedence (W : World) s ty docs :
  Forall2
    (fun d doc =>
       res (load_import W (os_path_isfile W (self_path s)) d s)
       = Return (VMap doc))
    (imports_of (self_tpl s)) docs ->
  Forall (fun doc => is_section (PyDict.get ty doc) = true) docs ->
  is_section (PyDict.get ty (self_tpl s)) = true ->
  let imported := merge_sections ty docs in
  let inline := section ty (self_tpl s) in
  let registry := PyDict.update imported inline in
  res (_get_custom_types W ty s) = Return registry /\
  (forall name def,
     PyDict.lookup name inline = Some def ->
     PyDict.lookup name registry = Some def) /\
  (forall name def pre doc post,
     docs = pre ++ doc :: post ->
     PyDict.lookup name (section ty doc) = Some def ->
     Forall (fun doc' => PyDict.lookup name (section ty doc') = None) post ->
     PyDict.lookup name inline = None ->
     PyDict.lookup name registry = Some def).
Proof.
  intros Hload Hsec Hroot imported inline registry.
  subst imported inline registry. split; [|split].
  - rewrite get_custom_types_run. cbn zeta. cbn [res].
    rewrite (for_in_imports W _ ty s _ docs Hload Hsec).
    now apply merge_inner_section.
  - intros name def H. rewrite PyDictFacts.lookup_update. now rewrite H.
  - intros name def pre doc post -> Hdef Hpost Hin.
    rewrite PyDictFacts.lookup_update, Hin.
    unfold merge_sections. rewrite fold_left_app. cbn [fold_left].
    rewrite (lookup_merge_skip ty name post Hpost).
    rewrite PyDictFacts.lookup_update. now rewrite Hdef.
Qed.

(** C10.  With the imports section absent or an empty list, the category
    merge calls nothing, so loads no document, leaves the object and with
    it the root document as they were, and returns exactly the root's
    inline section for the category, which is the empty mapping when the
    root has none. *)
Theorem no_imports_merge (W : World) s ty :
  PyDict.lookup IMPORTS (self_tpl s) = None \/
  PyDict.lookup IMPORTS (self_tpl s) = Some (VSeq []) ->
  is_section (PyDict.get ty (self_tpl s)) = true ->
  PyDict.wf (section ty (self_tpl s)) ->
  _get_custom_types W ty s
  = {| res := Return (section ty (self_tpl s)); obj := s; log := [] |} /\
  (PyDict.lookup ty (self_tpl s) = None -> section ty (self_tpl s) = []).
Proof.
  intros Himp Hsec Hwf. split.
  - rewrite get_custom_types_run. unfold imports_of.
    assert (E : PyDict.get IMPORTS (self_tpl s) = VNull \/
                PyDict.get IMPORTS (self_tpl s) = VSeq []).
    { unfold PyDict.get. destruct Himp as [-> | ->]; auto. }
    cbn zeta.
    destruct E as [-> | ->]; cbn [iter for_in ret res log truthy app];
      rewrite (merge_inner_section ty _ [] Hsec);
      now rewrite PyDictFacts.update_empty.
  - intros H. unfold section, PyDict.get. now rewrite H.
Qed.

Lemma merged_registry_precedence_witness :
  res (_get_custom_types Sample.local_world NODE_TYPES Sample.merge_self)
  = Return [("X", VStr "B"); ("Y", VStr "root")].
Proof.
  refine (proj1 (merged_registry_precedence
                   Sample.local_world Sample.merge_self NODE_TYPES
                   [Sample.types_A; Sample.types_B] _ _ _)).
  - constructor; [reflexivity|]. constructor; [reflexivity|]. constructor.
  - constructor; [reflexivity|]. constructor; [reflexivity|]. constructor.
  - reflexivity.
Defined.

Lemma no_imports_merge_witness :
  _get_custom_types Sample.local_world NODE_TYPES Sample.inline_self
  = {| res := Return [("N", VStr "root")]; obj := Sample.inline_self;
       log := [] |}.
Proof.
  apply (proj1 (no_imports_merge
                  Sample.local_world Sample.inline_self NODE_TYPES
                  (or_intror eq_refl) eq_refl
                  (NoDup_cons "N" (fun H : In "N" [] => H)
                     (NoDup_nil string)))).
Defined.

(** ** The aggregate registry *)

Lemma for_in_step {A B} (body : B -> A -> M B) s x l acc acc' :
  res (body acc x s) = Return acc' ->
  obj (body acc x s) = s ->
  res (for_in (x :: l) acc body s) = res (for_in l acc' body s).
Proof.
  intros R O. cbn [for_in].
  destruct (bind_Return (body acc x) (fun a => for_in l a body) s acc' R)
    as (R' & _).
  now rewrite R', O.
Qed.

Lemma all_custom_defs_step (W : World) s ty acc r :
  res (_get_custom_types W ty s) = Return r ->
  let body := fun custom_defs type =>
    custom_def <- _get_custom_types W type ;;
    if truthy (VMap custom_def)
    then lift (dict_update custom_defs (VMap custom_def))
    else ret custom_defs in
  res (body acc ty s) = Return (PyDict.update acc r) /\
  obj (body acc ty s) = s.
Proof.
  intros R body. subst body. cbn beta.
  match goal with
  | |- context [bind ?m ?f s] =>
      destruct (bind_Return m f s r R) as (R' & O' & _)
  end.
  rewrite R', O', (proj1 (reader_get_custom_types W ty) s).
  destruct r; split; reflexivity.
Qed.

(** C2.  The aggregate registry is the overwrite-merge of the registries of
    exactly four categories, in the order node types, capability types,
    relationship types, datatype definitions: a name maps to the
    definition of the last of these categories that defines it.  Artifact
    types take no part. *)
Theorem aggregate_registry (W : World) s nodes caps rels datas :
  res (_get_custom_types W NODE_TYPES s) = Return nodes ->
  res (_get_custom_types W CAPABILITY_TYPES s) = Return caps ->
  res (_get_custom_types W RELATIONSHIP_TYPES s) = Return rels ->
  res (_get_custom_types W DATATYPE_DEFINITIONS s) = Return datas ->
  let aggregate :=
    PyDict.update
      (PyDict.update (PyDict.update (PyDict.update [] nodes) caps) rels)
      datas in
  res (_get_all_custom_defs W s) = Return aggregate /\
  obj (_get_all_custom_defs W s) = s /\
  forall name,
    PyDict.lookup name aggregate
    = match PyDict.lookup name datas with
      | Some def => Some def
      | None =>
          match PyDict.lookup name rels with
          | Some def => Some def
          | None =>
              match PyDict.lookup name caps with
              | Some def => Some def
              | None => PyDict.lookup name nodes
              end
          end
      end.
Proof.
  intros Hn Hc Hr Hd aggregate. subst aggregate. split; [|split].
  - unfold _get_all_custom_defs. cbn zeta.
    destruct (all_custom_defs_step W s NODE_TYPES [] nodes Hn) as [R1 O1].
    rewrite (for_in_step _ s _ _ _ _ R1 O1).
    destruct (all_custom_defs_step W s CAPABILITY_TYPES
                (PyDict.update [] nodes) caps Hc) as [R2 O2].
    rewrite (for_in_step _ s _ _ _ _ R2 O2).
    destruct (all_custom_defs_step W s RELATIONSHIP_TYPES
                (PyDict.update (PyDict.update [] nodes) caps) rels Hr)
      as [R3 O3].
    rewrite (for_in_step _ s _ _ _ _ R3 O3).
    destruct (all_custom_defs_step W s DATATYPE_DEFINITIONS
                (PyDict.update (PyDict.update (PyDict.update [] nodes) caps)
                   rels) datas Hd) as [R4 O4].
    rewrite (for_in_step _ s _ _ _ _ R4 O4).
    reflexivity.
  - apply (proj1 (reader_get_all_custom_defs W)).
  - intros name. rewrite !PyDictFacts.lookup_update.
    destruct (PyDict.lookup name datas); [reflexivity|].
    destruct (PyDict.lookup name rels); [reflexivity|].
    destruct (PyDict.lookup name caps); [reflexivity|].
    destruct (PyDict.lookup name nodes); reflexivity.
Qed.

Lemma aggregate_registry_witness :
  res (_get_all_custom_defs Sample.local_world Sample.merge_self)
  = Return [("X", VStr "data"); ("Y", VStr "root")].
Proof.
  apply (proj1 (aggregate_registry
                  Sample.local_world Sample.merge_self
                  [("X", VStr "B"); ("Y", VStr "root")] [] []
                  [("X", VStr "data")]
                  eq_refl eq_refl eq_refl eq_refl)).
Defined.

(** ** Root locality *)

(** C8, as stated, fails: a template constructed with the is-local flag set
    and loaded from a path that is no regular file has its import resolved
    the remote way.  The merge asks the filesystem about the root path and
    rejects the absolute import that the load-time locality would load as a
    file. *)
Lemma root_locality_rechecked :
  self_a_file Sample.pipe_self = true /\
  __init__ Sample.pipe_world "/dev/stdin" true VNull
  = (Raise (ImportError ImportError_message),
     [Call_YAML_LOADER "/dev/stdin" true; Call_isfile "/dev/stdin";
      Call_validate_url "/etc/types.yaml"]) /\
  _get_custom_types Sample.pipe_world NODE_TYPES Sample.pipe_self
  = {| res := Raise (ImportError ImportError_message);
       obj := Sample.pipe_self;
       log := [Call_isfile "/dev/stdin";
               Call_validate_url "/etc/types.yaml"] |} /\
  mergeCategory Sample.pipe_world NODE_TYPES Sample.pipe_self
  = {| res := Return [("X", VStr "A"); ("Y", VStr "A")];
       obj := Sample.pipe_self;
       log := [Call_isfile "/etc/types.yaml";
               Call_YAML_LOADER "/etc/types.yaml" true] |}.
Proof. repeat split. Qed.

Lemma mergeCategory_run (W : World) ty s :
  mergeCategory W ty s
  = let r :=
      for_in (imports_of (self_tpl s)) []
        (import_body W (self_a_file s) ty) s in
    {| res := match res r with
              | Return custom_defs => merge_inner ty (self_tpl s) custom_defs
              | Raise e => Raise e
              end;
       obj := s; log := log r |}.
Proof.
  unfold mergeCategory, imports_of, bind, read, lift.
  cbn [res obj log app]. rewrite !tpl_imports_run. cbn [res obj log app].
  set (r := for_in _ _ _ s).
  assert (K : obj r = s).
  { apply keeps_for_in. intros. apply reader_keeps, reader_import_body. }
  cbn zeta. fold r.
  destruct (res r); cbn [res obj log]; rewrite ?K, ?app_nil_r; reflexivity.
Qed.

(** C8 (amended).  The root locality that import resolution uses is not the
    flag given at construction: each category merge of a template with
    imports first asks the filesystem whether the root path is a regular
    file, and resolves every import of that merge with the answer.  The
    flag plays no part, so two objects with the same document and path
    merge alike; where the flag agrees with the filesystem, the merge is
    the one the load-time locality gives. *)
Theorem root_locality_from_file_check (W : World) s ty :
  let r :=
    for_in (imports_of (self_tpl s)) []
      (import_body W (os_path_isfile W (self_path s)) ty) s in
  (res (_get_custom_types W ty s)
   = match res r with
     | Return custom_defs => merge_inner ty (self_tpl s) custom_defs
     | Raise e => Raise e
     end) /\
  (truthy (PyDict.get IMPORTS (self_tpl s)) = true ->
   log (_get_custom_types W ty s) = Call_isfile (self_path s) :: log r) /\
  (forall s',
     self_tpl s' = self_tpl s -> self_path s' = self_path s ->
     res (_get_custom_types W ty s') = res (_get_custom_types W ty s) /\
     log (_get_custom_types W ty s') = log (_get_custom_types W ty s)) /\
  (self_a_file s = os_path_isfile W (self_path s) ->
   res (_get_custom_types W ty s) = res (mergeCategory W ty s)).
Proof.
  intros r. subst r. rewrite get_custom_types_run. cbn zeta. cbn [res log].
  split; [reflexivity | split; [|split]].
  - intros ->. reflexivity.
  - intros s' Ht Hp.
    destruct (proj2 (reader_get_custom_types W ty) s' s (conj Ht Hp))
      as [R L].
    rewrite R, L, get_custom_types_run. split; reflexivity.
  - intros E. rewrite mergeCategory_run, E. reflexivity.
Qed.

Lemma root_locality_from_file_check_witness :
  res (_get_custom_types Sample.local_world NODE_TYPES Sample.merge_self)
  = res (mergeCategory Sample.local_world NODE_TYPES Sample.merge_self) /\
  res (_get_custom_types Sample.pipe_world NODE_TYPES
         (loaded Sample.tpl_pipe "/dev/stdin" false VNull))
  = res (_get_custom_types Sample.pipe_world NODE_TYPES Sample.pipe_self).
Proof.
  split.
  - apply (proj2 (proj2 (proj2 (root_locality_from_file_check
                                  Sample.local_world Sample.merge_self
                                  NODE_TYPES)))).
    reflexivity.
  - apply (proj1 (proj2 (proj2 (root_locality_from_file_check
                                  Sample.pipe_world Sample.pipe_self
                                  NODE_TYPES)))
             (loaded Sample.tpl_pipe "/dev/stdin" false VNull));
      reflexivity.
Defined.

(** ** Construction *)




Section Init_facts.

Variable W : World.

Lemma tpl_description_run s :
  _tpl_description s
  = {| res := match PyDict.lookup DESCRIPTION (self_tpl s) with
              | Some (VStr d) => Return (rstrip d)
              | Some _ => Raise AttributeError
              | None => Raise (KeyError DESCRIPTION)
              end;
       obj := s; log := [] |}.
Proof.
  unfold _tpl_description, bind, read, getitem. cbn [res obj log].
  destruct (PyDict.lookup DESCRIPTION (self_tpl s)) as [[|d|l|m]|];
    reflexivity.
Qed.

Lemma tpl_version_run s :
  _tpl_version s
  = {| res := match PyDict.lookup DEFINITION_VERSION (self_tpl s) with
              | Some v => Return v
              | None => Raise (KeyError DEFINITION_VERSION)
              end;
       obj := s; log := [] |}.
Proof.
  unfold _tpl_version, bind, read, getitem. cbn [res obj log].
  destruct (PyDict.lookup DEFINITION_VERSION (self_tpl s)); reflexivity.
Qed.

Lemma validated_version s :
  res (_validate_field s) = Return tt ->
  exists v, res (_tpl_version s) = Return v.
Proof.
  rewrite validate_field_run, tpl_version_run. cbn [res].
  destruct (PyDict.lookup DEFINITION_VERSION (self_tpl s)) as [v|];
    [eauto | discriminate].
Qed.

Lemma keeps_tpl_relationship_types :
  keeps_self (_tpl_relationship_types W).
Proof. exact (proj1 (reader_get_custom_types W RELATIONSHIP_TYPES)). Qed.




End Init_facts.





(** The two constructions above, run: without a description the lookup
    raises; with one the constructor returns. *)
Example construction_runs :
  fst (__init__ Sample.minimal_world "nodesc.yaml" true VNull)
  = Raise (KeyError DESCRIPTION) /\
  exists t,
    fst (__init__ Sample.minimal_world "root.yaml" true VNull) = Return t /\
    self_description t = Some "A template." /\
    self_graph t = Some (VSeq []).
Proof.
  split; [vm_compute; reflexivity|].
  eexists. split; [vm_compute; reflexivity|]. split; reflexivity.
Qed.

(** * Further properties *)

(** ** What a category merge calls *)

Lemma loads_of_app l l' : loads_of (l ++ l') = loads_of l ++ loads_of l'.
Proof.
  induction l as [|c l IH]; cbn [app loads_of]; [reflexivity|].
  destruct c; cbn [app]; now rewrite IH.
Qed.

Lemma for_in_log_Forall {A B} (P : call -> Prop) (body : B -> A -> M B) s :
  (forall acc x, obj (body acc x s) = s) ->
  (forall acc x, Forall P (log (body acc x s))) ->
  forall l acc, Forall P (log (for_in l acc body s)).
Proof.
  intros K H. induction l as [|x l IH]; intros acc; cbn [for_in].
  - constructor.
  - unfold bind. destruct (res (body acc x s)) as [acc'|e]; cbn [log].
    + apply Forall_app. split; [apply H | rewrite K; apply IH].
    + apply H.
Qed.

Section Call_facts.

Variable W : World.

Lemma keeps_import_body main ty s acc d :
  obj (import_body W main ty acc d s) = s.
Proof. apply (proj1 (reader_import_body W main ty acc d)). Qed.

Lemma import_body_log main ty acc d s :
  log (import_body W main ty acc d s) = log (load_import W main d s).
Proof. rewrite import_body_run. reflexivity. Qed.

(** The log of a merge: the root check, where there are imports, and the
    loop's. *)
Lemma merge_log_Forall (P : call -> Prop) ty s :
  P (Call_isfile (self_path s)) ->
  (forall d,
     Forall P (log (load_import W (os_path_isfile W (self_path s)) d s))) ->
  Forall P (log (_get_custom_types W ty s)).
Proof.
  intros Hroot Hload. rewrite get_custom_types_run. cbn zeta. cbn [log].
  apply Forall_app. split.
  - destruct (truthy _); repeat constructor. exact Hroot.
  - apply for_in_log_Forall.
    + intros. apply keeps_import_body.
    + intros. rewrite import_body_log. apply Hload.
Qed.

(** X2.  The merge of a template whose root path is no local file keeps
    off the local filesystem: every document it loads, it loads with the
    non-local flag, and the one path it asks the filesystem about is the
    root's own.  This holds for whatever the imports are, and whether the
    merge returns or raises. *)
Theorem remote_merge_off_filesystem ty s :
  os_path_isfile W (self_path s) = false ->
  Forall (off_filesystem (self_path s)) (log (_get_custom_types W ty s)).
Proof.
  intros Hroot. apply merge_log_Forall; [reflexivity|].
  intros d. rewrite Hroot, load_import_run, resolve_import_remote.
  destruct (validate_url W d); cbn zeta; cbn [res log app].
  - repeat constructor.
  - destruct (os_path_isabs d); cbn [res log app];
      [repeat constructor|].
    destruct (join_url W (self_path s) d); cbn [res log app];
      repeat constructor.
Qed.

(** X3.  The merge of a template whose root path is a local file makes no
    call to the URL utilities: no import is validated as a URL or joined
    against the root's location, not even one that no file check finds. *)
Theorem local_merge_no_url_call ty s :
  os_path_isfile W (self_path s) = true ->
  Forall no_url_call (log (_get_custom_types W ty s)).
Proof.
  intros Hroot. apply merge_log_Forall; [exact I|].
  intros d. rewrite Hroot, load_import_run, resolve_import_local.
  cbn zeta. destruct (os_path_isfile W d); cbn [res log app].
  - repeat constructor.
  - destruct (os_path_isfile W
                (os_path_join
                   (os_path_dirname (os_path_abspath W (self_path s))) d));
      cbn [log app]; repeat constructor.
Qed.


End Call_facts.

Lemma remote_merge_off_filesystem_witness :
  Forall (off_filesystem "https://host/root.yaml")
    (log (_get_custom_types Sample.remote_world NODE_TYPES
            Sample.remote_self)).
Proof.
  exact (remote_merge_off_filesystem Sample.remote_world NODE_TYPES
           Sample.remote_self eq_refl).
Defined.

Lemma local_merge_no_url_call_witness :
  Forall no_url_call
    (log (_get_custom_types Sample.local_world NODE_TYPES Sample.local_self)).
Proof.
  exact (local_merge_no_url_call Sample.local_world NODE_TYPES
           Sample.local_self eq_refl).
Defined.

(** ** Which documents a merge loads *)

Section Load_facts.

Variable W : World.

Lemma resolve_import_loads main d s :
  loads_of (log (resolve_import W main d s)) = [].
Proof.
  destruct main.
  - rewrite resolve_import_local. cbn zeta.
    destruct (os_path_isfile W d); reflexivity.
  - rewrite resolve_import_remote.
    destruct (validate_url W d); [reflexivity|].
    destruct (os_path_isabs d); [reflexivity|].
    destruct (join_url W (self_path s) d); reflexivity.
Qed.

(** An import whose turn of the loop returns was resolved, and its
    document, a mapping, was the one load of that turn. *)
Lemma import_body_returns main ty acc d s acc' :
  res (import_body W main ty acc d s) = Return acc' ->
  exists c doc,
    res (resolve_import W main d s) = Return c /\
    res (load_import W main d s) = Return (VMap doc) /\
    loads_of (log (import_body W main ty acc d s)) = [c].
Proof.
  rewrite import_body_run. cbn zeta. cbn [res log].
  rewrite load_import_run. cbn zeta.
  pose proof (resolve_import_loads main d s) as L.
  destruct (res (resolve_import W main d s)) as [[f a]|e]; cbn [res log];
    [|discriminate].
  destruct (YAML_LOADER W f a) as [doc|e]; [|discriminate].
  unfold merge_outer.
  destruct doc as [| | |m]; cbn [value_get]; try discriminate.
  intros _. exists (f, a), m.
  rewrite loads_of_app, L. repeat split.
Qed.

Lemma for_in_returns main ty s ds :
  forall acc r,
    res (for_in ds acc (import_body W main ty) s) = Return r ->
    Forall2 (fun d c => res (resolve_import W main d s) = Return c) ds
      (loads_of (log (for_in ds acc (import_body W main ty) s))) /\
    exists docs,
      Forall2 (fun d doc => res (load_import W main d s) = Return (VMap doc))
        ds docs.
Proof.
  induction ds as [|d ds IH]; intros acc r H.
  - split; [constructor | exists []; constructor].
  - cbn [for_in] in *.
    destruct (bind_inv _ _ _ _ H) as (acc' & Ha & H' & _).
    destruct (bind_Return _ (fun a => for_in ds a (import_body W main ty))
                _ _ Ha) as (_ & _ & L).
    rewrite L, loads_of_app. rewrite keeps_import_body in *.
    destruct (import_body_returns _ _ _ _ _ _ Ha) as (c & doc & Hc & Hd & ->).
    destruct (IH _ _ H') as (F & docs & D).
    split; [now constructor | exists (doc :: docs); now constructor].
Qed.

Lemma merge_returns_for_in ty s r :
  res (_get_custom_types W ty s) = Return r ->
  exists custom_defs,
    res (for_in (imports_of (self_tpl s)) []
           (import_body W (os_path_isfile W (self_path s)) ty) s)
    = Return custom_defs.
Proof.
  rewrite get_custom_types_run. cbn zeta. cbn [res].
  destruct (res (for_in _ _ _ s)) as [cd|e]; [eauto | discriminate].
Qed.

Lemma merge_loads ty s :
  loads_of (log (_get_custom_types W ty s))
  = loads_of
      (log (for_in (imports_of (self_tpl s)) []
              (import_body W (os_path_isfile W (self_path s)) ty) s)).
Proof.
  rewrite get_custom_types_run. cbn zeta. cbn [log].
  rewrite loads_of_app. destruct (truthy _); reflexivity.
Qed.

(** X1.  A merge that returns has loaded exactly the root's own imports:
    one document per import reference, in declaration order, each from the
    location and with the flag the reference resolved to.  Nothing else is
    loaded; an import's own imports are not followed. *)
Theorem merge_loads_each_import_once ty s r :
  res (_get_custom_types W ty s) = Return r ->
  Forall2
    (fun d c =>
       res (resolve_import W (os_path_isfile W (self_path s)) d s) = Return c)
    (imports_of (self_tpl s))
    (loads_of (log (_get_custom_types W ty s))) /\
  List.length (loads_of (log (_get_custom_types W ty s)))
  = List.length (imports_of (self_tpl s)).
Proof.
  intros H. destruct (merge_returns_for_in ty s r H) as [cd Hcd].
  rewrite merge_loads.
  destruct (for_in_returns _ ty s _ _ _ Hcd) as [F _].
  split; [exact F | symmetry; exact (Forall2_length F)].
Qed.

(** X7.  A merge returns only if every import resolved and loaded a
    mapping: whatever the category, one import that fails to resolve, fails
    to load, or loads something that is no mapping makes the merge
    raise. *)
Theorem merge_returns_only_if_imports_load ty s r :
  res (_get_custom_types W ty s) = Return r ->
  exists docs,
    Forall2
      (fun d doc =>
         res (load_import W (os_path_isfile W (self_path s)) d s)
         = Return (VMap doc))
      (imports_of (self_tpl s)) docs.
Proof.
  intros H. destruct (merge_returns_for_in ty s r H) as [cd Hcd].
  exact (proj2 (for_in_returns _ ty s _ _ _ Hcd)).
Qed.

End Load_facts.

Lemma merge_loads_each_import_once_witness :
  loads_of (log (_get_custom_types Sample.local_world NODE_TYPES
                   Sample.local_self))
  = [("/cwd/a/types.yaml", true); ("b.yaml", true);
     ("http://host/c.yaml", false)] /\
  List.length (loads_of (log (_get_custom_types Sample.local_world NODE_TYPES
                           Sample.local_self))) = 3.
Proof.
  split; [reflexivity|].
  exact (proj2 (merge_loads_each_import_once Sample.local_world NODE_TYPES
                  Sample.local_self
                  [("X", VStr "B"); ("Y", VStr "A")] eq_refl)).
Defined.

Lemma merge_returns_only_if_imports_load_witness :
  exists docs,
    Forall2
      (fun d doc =>
         res (load_import Sample.local_world true d Sample.local_self)
         = Return (VMap doc))
      ["types.yaml"; "b.yaml"; "http://host/c.yaml"] docs.
Proof.
  exact (merge_returns_only_if_imports_load Sample.local_world NODE_TYPES
           Sample.local_self [("X", VStr "B"); ("Y", VStr "A")] eq_refl).
Defined.

(** ** Which documents validate *)

Lemma first_unknown_Forall ks :
  first_unknown ks = None <->
  Forall (fun k => str_in k SECTIONS = true) ks.
Proof.
  split; [|apply first_unknown_none].
  unfold first_unknown. induction ks as [|k ks IH]; cbn [find].
  - constructor.
  - destruct (str_in k SECTIONS) eqn:E; cbn [negb]; [|discriminate].
    intros H. constructor; auto.
Qed.

(** X5.  Field validation returns exactly for the documents whose version
    key holds the accepted literal and whose top-level keys are all schema
    keys; every other document makes it raise. *)
Theorem validate_field_accepts_iff (s : ToscaTemplate) :
  res (_validate_field s) = Return tt <->
  PyDict.lookup DEFINITION_VERSION (self_tpl s)
  = Some (VStr "tosca_simple_yaml_1_0") /\
  Forall (fun k => str_in k SECTIONS = true) (PyDict.keys (self_tpl s)).
Proof.
  rewrite validate_field_run. cbn [res]. split.
  - destruct (PyDict.lookup DEFINITION_VERSION (self_tpl s)) as [v|];
      [|discriminate].
    destruct (value_in v VALID_TEMPLATE_VERSIONS) eqn:V; [|discriminate].
    apply valid_version_literal in V. subst v.
    destruct (first_unknown (PyDict.keys (self_tpl s))) eqn:U;
      [discriminate|].
    intros _. split; [reflexivity | now apply first_unknown_Forall].
  - intros [-> K]. apply first_unknown_Forall in K. now rewrite K.
Qed.

(** ** Which names a registry holds *)

Lemma lookup_merge_None ty name docs :
  forall acc,
    PyDict.lookup name
      (fold_left (fun acc doc => PyDict.update acc (section ty doc)) docs acc)
    = None <->
    PyDict.lookup name acc = None /\
    Forall (fun doc => PyDict.lookup name (section ty doc) = None) docs.
Proof.
  induction docs as [|doc docs IH]; intros acc; cbn [fold_left].
  - split; [intros H; split; [exact H | constructor] | now intros [H _]].
  - rewrite IH, PyDictFacts.lookup_update. split.
    + intros [H F].
      destruct (PyDict.lookup name (section ty doc)) eqn:E; [discriminate|].
      split; [exact H | now constructor].
    + intros [H F]. inversion F as [|? ? Hd F']; subst.
      rewrite Hd. split; assumption.
Qed.

Lemma lookup_merge_Some ty name def docs :
  forall acc,
    PyDict.lookup name
      (fold_left (fun acc doc => PyDict.update acc (section ty doc)) docs acc)
    = Some def ->
    PyDict.lookup name acc = Some def \/
    exists doc, In doc docs /\ PyDict.lookup name (section ty doc) = Some def.
Proof.
  induction docs as [|doc docs IH]; intros acc; cbn [fold_left].
  - auto.
  - intros H. destruct (IH _ H) as [H'|(doc' & I & H')].
    + rewrite PyDictFacts.lookup_update in H'.
      destruct (PyDict.lookup name (section ty doc)) eqn:E.
      * right. exists doc. split; [now left | congruence].
      * now left.
    + right. exists doc'. split; [now right | exact H'].
Qed.

(** X6.  Where every import loads a mapping and the sections are mappings,
    the merged registry holds the names the root or some import defines and
    no other: a name is missing from it exactly when neither the root's
    section nor any import's has it, and each definition in it is the
    root's or some import's for that name. *)
Theorem registry_names (W : World) s ty docs :
  Forall2
    (fun d doc =>
       res (load_import W (os_path_isfile W (self_path s)) d s)
       = Return (VMap doc))
    (imports_of (self_tpl s)) docs ->
  Forall (fun doc => is_section (PyDict.get ty doc) = true) docs ->
  is_section (PyDict.get ty (self_tpl s)) = true ->
  exists registry,
    res (_get_custom_types W ty s) = Return registry /\
    forall name,
      (PyDict.lookup name registry = None <->
       PyDict.lookup name (section ty (self_tpl s)) = None /\
       Forall (fun doc => PyDict.lookup name (section ty doc) = None) docs) /\
      (forall def,
         PyDict.lookup name registry = Some def ->
         PyDict.lookup name (section ty (self_tpl s)) = Some def \/
         exists doc,
           In doc docs /\ PyDict.lookup name (section ty doc) = Some def).
Proof.
  intros Hload Hsec Hroot. eexists. split.
  - rewrite get_custom_types_run. cbn zeta. cbn [res].
    rewrite (for_in_imports W _ ty s _ docs Hload Hsec).
    now apply merge_inner_section.
  - intros name. rewrite PyDictFacts.lookup_update. split.
    + destruct (PyDict.lookup name (section ty (self_tpl s))) eqn:E.
      * split; [discriminate | intros [H _]; discriminate].
      * rewrite lookup_merge_None. cbn [PyDict.lookup]. tauto.
    + intros def H.
      destruct (PyDict.lookup name (section ty (self_tpl s))) eqn:E;
        [now left|].
      right. apply lookup_merge_Some in H. cbn [PyDict.lookup] in H.
      destruct H as [H|H]; [discriminate | exact H].
Qed.

Lemma registry_names_witness :
  exists registry,
    res (_get_custom_types Sample.local_world NODE_TYPES Sample.merge_self)
    = Return registry /\
    forall name,
      (PyDict.lookup name registry = None <->
       PyDict.lookup name (section NODE_TYPES Sample.tpl_merge) = None /\
       Forall
         (fun doc => PyDict.lookup name (section NODE_TYPES doc) = None)
         [Sample.types_A; Sample.types_B]) /\
      (forall def,
         PyDict.lookup name registry = Some def ->
         PyDict.lookup name (section NODE_TYPES Sample.tpl_merge) = Some def \/
         exists doc,
           In doc [Sample.types_A; Sample.types_B] /\
           PyDict.lookup name (section NODE_TYPES doc) = Some def).
Proof.
  refine (registry_names Sample.local_world Sample.merge_self NODE_TYPES
            [Sample.types_A; Sample.types_B] _ _ _).
  - constructor; [reflexivity|]. constructor; [reflexivity|]. constructor.
  - constructor; [reflexivity|]. constructor; [reflexivity|]. constructor.
  - reflexivity.
Defined.

(** ** How the aggregate registry fails *)

Lemma all_custom_defs_step_raises (W : World) s ty acc e :
  res (_get_custom_types W ty s) = Raise e ->
  forall l,
    res (for_in (ty :: l) acc
           (fun custom_defs type =>
              custom_def <- _get_custom_types W type ;;
              if truthy (VMap custom_def)
              then lift (dict_update custom_defs (VMap custom_def))
              else ret custom_defs) s)
    = Raise e.
Proof.
  intros R l. cbn [for_in].
  assert (B : res ((custom_def <- _get_custom_types W ty ;;
                    if truthy (VMap custom_def)
                    then lift (dict_update acc (VMap custom_def))
                    else ret acc) s) = Raise e).
  { now destruct (bind_Raise (_get_custom_types W ty)
                    (fun custom_def =>
                       if truthy (VMap custom_def)
                       then lift (dict_update acc (VMap custom_def))
                       else ret acc) s e R). }
  match goal with
  | |- res (bind ?m ?f s) = _ => now destruct (bind_Raise m f s e B)
  end.
Qed.

(** X8.  The aggregate registry is built category by category, node types
    first, then capability types, relationship types and datatype
    definitions, and stops at the first category whose merge raises: it
    raises that exception, whatever the later categories would do, and
    returns only if all four merges return. *)
Theorem aggregate_raises_with_first (W : World) s :
  res (_get_all_custom_defs W s)
  = match res (_get_custom_types W NODE_TYPES s) with
    | Raise e => Raise e
    | Return nodes =>
        match res (_get_custom_types W CAPABILITY_TYPES s) with
        | Raise e => Raise e
        | Return caps =>
            match res (_get_custom_types W RELATIONSHIP_TYPES s) with
            | Raise e => Raise e
            | Return rels =>
                match res (_get_custom_types W DATATYPE_DEFINITIONS s) with
                | Raise e => Raise e
                | Return datas =>
                    Return
                      (PyDict.update
                         (PyDict.update
                            (PyDict.update (PyDict.update [] nodes) caps)
                            rels)
                         datas)
                end
            end
        end
    end.
Proof.
  unfold _get_all_custom_defs. cbn zeta.
  destruct (res (_get_custom_types W NODE_TYPES s)) as [nodes|e] eqn:Hn;
    [|now apply all_custom_defs_step_raises].
  destruct (all_custom_defs_step W s NODE_TYPES [] nodes Hn) as [R1 O1].
  rewrite (for_in_step _ s _ _ _ _ R1 O1).
  destruct (res (_get_custom_types W CAPABILITY_TYPES s)) as [caps|e] eqn:Hc;
    [|now apply all_custom_defs_step_raises].
  destruct (all_custom_defs_step W s CAPABILITY_TYPES
              (PyDict.update [] nodes) caps Hc) as [R2 O2].
  rewrite (for_in_step _ s _ _ _ _ R2 O2).
  destruct (res (_get_custom_types W RELATIONSHIP_TYPES s)) as [rels|e] eqn:Hr;
    [|now apply all_custom_defs_step_raises].
  destruct (all_custom_defs_step W s RELATIONSHIP_TYPES
              (PyDict.update (PyDict.update [] nodes) caps) rels Hr)
    as [R3 O3].
  rewrite (for_in_step _ s _ _ _ _ R3 O3).
  destruct (res (_get_custom_types W DATATYPE_DEFINITIONS s))
    as [datas|e] eqn:Hd; [|now apply all_custom_defs_step_raises].
  destruct (all_custom_defs_step W s DATATYPE_DEFINITIONS
              (PyDict.update (PyDict.update (PyDict.update [] nodes) caps)
                 rels) datas Hd) as [R4 O4].
  rewrite (for_in_step _ s _ _ _ _ R4 O4).
  reflexivity.
Qed.

(** ** Relationship templates *)

(** X9.  [_tpl_relationship_templates] answers with the topology section's
    [relationship_templates] entry, [None] when the section has none; for
    a document whose topology section is missing or is no mapping it raises
    [AttributeError], because the section is asked for its keys before it
    is known to be there.  It changes nothing and calls nothing. *)
Theorem tpl_relationship_templates_outcome (s : ToscaTemplate) :
  _tpl_relationship_templates s
  = {| res := match PyDict.get TOPOLOGY_TEMPLATE (self_tpl s) with
              | VMap topology_template =>
                  Return (PyDict.get RELATIONSHIP_TEMPLATES topology_template)
              | _ => Raise AttributeError
              end;
       obj := s; log := [] |} /\
  (PyDict.lookup TOPOLOGY_TEMPLATE (self_tpl s) = None ->
   res (_tpl_relationship_templates s) = Raise AttributeError).
Proof.
  assert (E : _tpl_relationship_templates s
              = {| res := match PyDict.get TOPOLOGY_TEMPLATE (self_tpl s) with
                          | VMap topology_template =>
                              Return (PyDict.get RELATIONSHIP_TEMPLATES
                                        topology_template)
                          | _ => Raise AttributeError
                          end;
                   obj := s; log := [] |}).
  { unfold _tpl_relationship_templates, _tpl_topology_template, bind, read.
    cbn [ret res obj log app].
    destruct (PyDict.get TOPOLOGY_TEMPLATE (self_tpl s)) as [|x|l|m];
      try reflexivity.
    unfold getitem, PyDict.get.
    destruct (PyDict.contains RELATIONSHIP_TEMPLATES m) eqn:C.
    - apply PyDictFacts.contains_lookup in C. destruct C as [v ->].
      reflexivity.
    - destruct (PyDict.lookup RELATIONSHIP_TEMPLATES m) eqn:L;
        [|reflexivity].
      assert (PyDict.contains RELATIONSHIP_TEMPLATES m = true)
        by (apply PyDictFacts.contains_lookup; eauto).
      congruence. }
  split; [exact E|].
  intros H. rewrite E. cbn [res]. unfold PyDict.get. now rewrite H.
Qed.

Lemma tpl_relationship_templates_outcome_witness :
  res (_tpl_relationship_templates
         (loaded Sample.tpl_minimal "root.yaml" true VNull))
  = Raise AttributeError /\
  res (_tpl_relationship_templates Sample.topology_self)
  = Return (VMap [("rt", VStr "r")]).
Proof.
  split.
  - apply (proj2 (tpl_relationship_templates_outcome
                    (loaded Sample.tpl_minimal "root.yaml" true VNull))).
    reflexivity.
  - rewrite (proj1 (tpl_relationship_templates_outcome
                      Sample.topology_self)).
    reflexivity.
Defined.

(** ** What a constructed template holds *)

Lemma bind_inv_log {A B} (m : M A) (f : A -> M B) s b :
  res (bind m f s) = Return b ->
  exists a, res (m s) = Return a /\
            res (f a (obj (m s))) = Return b /\
            obj (bind m f s) = obj (f a (obj (m s))) /\
            log (bind m f s) = log (m s) ++ log (f a (obj (m s))).
Proof.
  destruct (res (m s)) as [a|e] eqn:E.
  - destruct (bind_Return m f s a E) as (R & O & L).
    rewrite R, O, L. eauto.
  - destruct (bind_Raise m f s e E) as (R & _). rewrite R. discriminate.
Qed.

Section Construction_facts.

Variable W : World.

Lemma attr_then_run {A B} (f : ToscaTemplate -> option A) (g : A -> B) s :
  (t <- attr f ;; ret (g t)) s
  = {| res := match f s with
              | Some a => Return (g a)
              | None => Raise AttributeError
              end;
       obj := s; log := [] |}.
Proof. unfold bind, attr, ret. cbn [res obj log]. now destruct (f s). Qed.

Lemma topology_template_run s :
  _topology_template W s
  = let a := _get_all_custom_defs W s in
    {| res := match res a, self_relationship_types s with
              | Return custom_defs, Some relationship_types =>
                  TopologyTemplate_new W
                    (PyDict.get TOPOLOGY_TEMPLATE (self_tpl s))
                    custom_defs relationship_types (self_parsed_params s)
              | Return _, None => Raise AttributeError
              | Raise e, _ => Raise e
              end;
       obj := s;
       log := log a ++
              match res a, self_relationship_types s with
              | Return _, Some _ => [Call_TopologyTemplate]
              | _, _ => []
              end |}.
Proof.
  unfold _topology_template, _tpl_topology_template, bind, read, attr,
    external.
  cbn [ret res obj log app].
  rewrite (proj1 (reader_get_all_custom_defs W) s). cbn zeta.
  destruct (res (_get_all_custom_defs W s)) as [cd|e]; cbn [res obj log].
  - destruct (self_relationship_types s); cbn [res obj log app]; reflexivity.
  - now rewrite app_nil_r.
Qed.

(** One assignment of [__init__], [self.attr = m()], when the rest
    returns. *)
Lemma assign_inv {A} (m : M A) (w : A -> ToscaTemplate -> ToscaTemplate)
    (k : M unit) s :
  obj (m s) = s ->
  res ((v <- m ;; set_self (w v) ;;; k) s) = Return tt ->
  exists v,
    res (m s) = Return v /\
    res (k (w v s)) = Return tt /\
    obj ((v <- m ;; set_self (w v) ;;; k) s) = obj (k (w v s)) /\
    log ((v <- m ;; set_self (w v) ;;; k) s) = log (m s) ++ log (k (w v s)).
Proof.
  intros K H.
  destruct (bind_inv_log _ _ _ _ H) as (v & Hv & H1 & O1 & L1).
  rewrite K in *.
  destruct (bind_inv_log _ _ _ _ H1) as ([] & _ & H2 & O2 & L2).
  cbn [set_self res obj log app] in *.
  exists v. rewrite O1, L1, O2, L2. auto.
Qed.

Lemma attr_topology_run (g : TopologyTemplate -> value) s topo :
  self_topology_template s = Some topo ->
  obj ((t <- attr self_topology_template ;; ret (g t)) s) = s /\
  log ((t <- attr self_topology_template ;; ret (g t)) s) = [] /\
  res ((t <- attr self_topology_template ;; ret (g t)) s) = Return (g topo).
Proof. intros E. rewrite attr_then_run. cbn [res obj log]. now rewrite E. Qed.

Lemma topology_template_returns s topo r :
  self_relationship_types s = Some r ->
  res (_topology_template W s) = Return topo ->
  exists agg,
    res (_get_all_custom_defs W s) = Return agg /\
    TopologyTemplate_new W (PyDict.get TOPOLOGY_TEMPLATE (self_tpl s)) agg r
      (self_parsed_params s) = Return topo /\
    log (_topology_template W s)
    = log (_get_all_custom_defs W s) ++ [Call_TopologyTemplate].
Proof.
  intros E. rewrite topology_template_run. cbn zeta. cbn [res log].
  rewrite E.
  destruct (res (_get_all_custom_defs W s)) as [agg|e]; [|discriminate].
  intros H. exists agg. repeat split. exact H.
Qed.

(** [__init__] from [self.inputs = self._inputs()] on, for an object whose
    topology template is assigned. *)
Lemma init_tail_returns s topo final calls :
  self_topology_template s = Some topo ->
  res ((v <- _inputs ;; set_self (with_inputs v) ;;;
        v <- _relationship_templates ;;
        set_self (with_relationship_templates v) ;;;
        v <- _nodetemplates ;; set_self (with_nodetemplates v) ;;;
        v <- _outputs ;; set_self (with_outputs v) ;;;
        nodetemplates <- attr self_nodetemplates ;;
        v <- external Call_ToscaGraph (ToscaGraph_new W nodetemplates) ;;
        set_self (with_graph v)) s) = Return tt ->
  obj ((v <- _inputs ;; set_self (with_inputs v) ;;;
        v <- _relationship_templates ;;
        set_self (with_relationship_templates v) ;;;
        v <- _nodetemplates ;; set_self (with_nodetemplates v) ;;;
        v <- _outputs ;; set_self (with_outputs v) ;;;
        nodetemplates <- attr self_nodetemplates ;;
        v <- external Call_ToscaGraph (ToscaGraph_new W nodetemplates) ;;
        set_self (with_graph v)) s) = final ->
  log ((v <- _inputs ;; set_self (with_inputs v) ;;;
        v <- _relationship_templates ;;
        set_self (with_relationship_templates v) ;;;
        v <- _nodetemplates ;; set_self (with_nodetemplates v) ;;;
        v <- _outputs ;; set_self (with_outputs v) ;;;
        nodetemplates <- attr self_nodetemplates ;;
        v <- external Call_ToscaGraph (ToscaGraph_new W nodetemplates) ;;
        set_self (with_graph v)) s) = calls ->
  exists g,
    ToscaGraph_new W (topology_nodetemplates topo) = Return g /\
    final
    = with_graph g
        (with_outputs (topology_outputs topo)
           (with_nodetemplates (topology_nodetemplates topo)
              (with_relationship_templates
                 (topology_relationship_templates topo)
                 (with_inputs (topology_inputs topo) s)))) /\
    calls = [Call_ToscaGraph].
Proof.
  intros E H Hobj Hlog.
  (* self.inputs *)
  destruct (attr_topology_run topology_inputs s topo E) as (K1 & L1 & R1).
  destruct (assign_inv _inputs _ _ s K1 H) as (i & Hi & H1 & O1 & M1).
  rewrite O1 in Hobj. rewrite M1 in Hlog. clear H O1 M1.
  fold _inputs in L1, R1. rewrite L1 in Hlog. rewrite R1 in Hi.
  injection Hi as <-. cbn [app] in Hlog. clear K1 L1 R1.
  (* self.relationship_templates *)
  destruct (attr_topology_run topology_relationship_templates
              (with_inputs (topology_inputs topo) s) topo E)
    as (K2 & L2 & R2).
  destruct (assign_inv _relationship_templates _ _ _ K2 H1)
    as (rt & Hrt & H2 & O2 & M2).
  rewrite O2 in Hobj. rewrite M2 in Hlog. clear H1 O2 M2.
  fold _relationship_templates in L2, R2.
  rewrite L2 in Hlog. rewrite R2 in Hrt.
  injection Hrt as <-. cbn [app] in Hlog. clear K2 L2 R2.
  (* self.nodetemplates *)
  destruct (attr_topology_run topology_nodetemplates
              (with_relationship_templates
                 (topology_relationship_templates topo)
                 (with_inputs (topology_inputs topo) s)) topo E)
    as (K3 & L3 & R3).
  destruct (assign_inv _nodetemplates _ _ _ K3 H2)
    as (nt & Hnt & H3 & O3 & M3).
  rewrite O3 in Hobj. rewrite M3 in Hlog. clear H2 O3 M3.
  fold _nodetemplates in L3, R3. rewrite L3 in Hlog. rewrite R3 in Hnt.
  injection Hnt as <-. cbn [app] in Hlog. clear K3 L3 R3.
  (* self.outputs *)
  destruct (attr_topology_run topology_outputs
              (with_nodetemplates (topology_nodetemplates topo)
                 (with_relationship_templates
                    (topology_relationship_templates topo)
                    (with_inputs (topology_inputs topo) s))) topo E)
    as (K4 & L4 & R4).
  destruct (assign_inv _outputs _ _ _ K4 H3) as (o & Ho & H4 & O4 & M4).
  rewrite O4 in Hobj. rewrite M4 in Hlog. clear H3 O4 M4.
  fold _outputs in L4, R4. rewrite L4 in Hlog. rewrite R4 in Ho.
  injection Ho as <-. cbn [app] in Hlog. clear K4 L4 R4.
  (* self.graph *)
  destruct (bind_inv_log _ _ _ _ H4) as (nts & Hnts & H5 & O5 & M5).
  rewrite O5 in Hobj. rewrite M5 in Hlog. clear H4 O5 M5.
  cbn [attr res obj log app] in Hnts, H5, Hobj, Hlog.
  cbn [self_nodetemplates with_outputs] in Hnts.
  injection Hnts as <-.
  destruct (bind_inv_log _ _ _ _ H5) as (g & Hg & _ & O6 & M6).
  rewrite O6 in Hobj. rewrite M6 in Hlog. clear H5 O6 M6.
  cbn [external set_self res obj log app] in Hg, Hobj, Hlog.
  exists g. subst final calls. repeat split. exact Hg.
Qed.

(** The kernel is to compare the long chains of [bind] as they stand. *)
Opaque bind.

Lemma init_rest_returns s final calls :
  res (init_rest W s) = Return tt ->
  obj (init_rest W s) = final ->
  log (init_rest W s) = calls ->
  exists r desc agg topo g,
    res (_validate_field s) = Return tt /\
    res (_tpl_version s) = Return (VStr "tosca_simple_yaml_1_0") /\
    res (_tpl_relationship_types W s) = Return r /\
    res (_tpl_description s) = Return desc /\
    res (_get_all_custom_defs W s) = Return agg /\
    TopologyTemplate_new W (PyDict.get TOPOLOGY_TEMPLATE (self_tpl s))
      agg r (self_parsed_params s) = Return topo /\
    ToscaGraph_new W (topology_nodetemplates topo) = Return g /\
    final
    = with_graph g
        (with_outputs (topology_outputs topo)
           (with_nodetemplates (topology_nodetemplates topo)
              (with_relationship_templates
                 (topology_relationship_templates topo)
                 (with_inputs (topology_inputs topo)
                    (with_topology_template topo
                       (with_description desc
                          (with_relationship_types r
                             (with_version (VStr "tosca_simple_yaml_1_0")
                                s)))))))) /\
    calls
    = log (_tpl_relationship_types W s) ++ log (_get_all_custom_defs W s)
      ++ [Call_TopologyTemplate; Call_ToscaGraph].
Proof.
  intros H Hobj Hlog. unfold init_rest in *.
  destruct (bind_inv_log _ _ _ _ H) as ([] & Hval & H1 & O1 & L1).
  rewrite O1 in Hobj. rewrite L1 in Hlog. clear H O1 L1.
  rewrite keeps_validate_field in *.
  assert (Lval : log (_validate_field s) = [])
    by (now rewrite validate_field_run).
  rewrite Lval in Hlog. cbn [app] in Hlog. clear Lval.
  (* self.version *)
  destruct (assign_inv _ _ _ s (keeps_tpl_version s) H1)
    as (v & Hv & H2 & O2 & L2).
  rewrite O2 in Hobj. rewrite L2 in Hlog. clear H1 O2 L2.
  assert (Hver : v = VStr "tosca_simple_yaml_1_0").
  { rewrite validate_field_run in Hval. rewrite tpl_version_run in Hv.
    cbn [res] in Hval, Hv.
    destruct (PyDict.lookup DEFINITION_VERSION (self_tpl s)) as [v'|];
      [|discriminate].
    injection Hv as ->.
    destruct (value_in v VALID_TEMPLATE_VERSIONS) eqn:V; [|discriminate].
    now apply valid_version_literal. }
  subst v.
  assert (Lver : log (_tpl_version s) = []) by (now rewrite tpl_version_run).
  rewrite Lver in Hlog. cbn [app] in Hlog. clear Lver.
  (* self.relationship_types *)
  destruct (assign_inv _ _ _ _ (keeps_tpl_relationship_types W _) H2)
    as (r & Hr & H3 & O3 & L3).
  rewrite O3 in Hobj. rewrite L3 in Hlog. clear H2 O3 L3.
  destruct (proj2 (reader_get_custom_types W RELATIONSHIP_TYPES)
              (with_version (VStr "tosca_simple_yaml_1_0") s) s
              (conj eq_refl eq_refl)) as [Rr Lr].
  fold (_tpl_relationship_types W) in Rr, Lr.
  rewrite Rr in Hr. rewrite Lr in Hlog. clear Rr Lr.
  (* self.description *)
  destruct (assign_inv _ _ _ _ (keeps_tpl_description _) H3)
    as (desc & Hdesc & H4 & O4 & L4).
  rewrite O4 in Hobj. rewrite L4 in Hlog. clear H3 O4 L4.
  rewrite tpl_description_run in Hlog. cbn [log app] in Hlog.
  assert (Hdesc' : res (_tpl_description s) = Return desc).
  { rewrite tpl_description_run in *. exact Hdesc. }
  clear Hdesc.
  (* self.topology_template *)
  destruct (assign_inv _ _ _ _ (keeps_topology_template W _) H4)
    as (topo & Htopo & H5 & O5 & L5).
  rewrite O5 in Hobj. rewrite L5 in Hlog. clear H4 O5 L5.
  destruct (topology_template_returns
              (with_description desc
                 (with_relationship_types r
                    (with_version (VStr "tosca_simple_yaml_1_0") s)))
              topo r eq_refl Htopo) as (agg & Hagg & Hnew & Lt).
  rewrite Lt in Hlog. clear Lt Htopo.
  destruct (proj2 (reader_get_all_custom_defs W)
              (with_description desc
                 (with_relationship_types r
                    (with_version (VStr "tosca_simple_yaml_1_0") s))) s
              (conj eq_refl eq_refl)) as [Ra La].
  rewrite Ra in Hagg. rewrite La in Hlog. clear Ra La.
  cbn [self_tpl self_parsed_params
       with_description with_relationship_types with_version] in Hnew.
  (* the rest *)
  assert (E : self_topology_template
                (with_topology_template topo
                   (with_description desc
                      (with_relationship_types r
                         (with_version (VStr "tosca_simple_yaml_1_0") s))))
              = Some topo) by reflexivity.
  destruct (init_tail_returns _ topo _ _ E H5 Hobj eq_refl)
    as (g & Hg & Hfinal & Hcalls).
  exists r, desc, agg, topo, g.
  split; [exact Hval|]. split; [exact Hv|]. split; [exact Hr|].
  split; [exact Hdesc'|]. split; [exact Hagg|]. split; [exact Hnew|].
  split; [exact Hg|]. split; [exact Hfinal|].
  rewrite <- Hlog, Hcalls, <- app_assoc. reflexivity.
Qed.

Transparent bind.

(** X10.  A template that [__init__] returns holds the loaded document,
    the path, the flag and the parameters it was given; the document has
    passed field validation, so the version is the accepted literal; the
    relationship types are the relationship-type merge; the topology
    template is what [TopologyTemplate] built from the document's topology
    section, the aggregate registry, the relationship types and the
    parameters; inputs, relationship templates, node templates and outputs
    are that topology's; and the graph is what [ToscaGraph] built from the
    topology's node templates. *)
Theorem constructed_template path a_file parsed_params t :
  fst (__init__ W path a_file parsed_params) = Return t ->
  exists tpl r agg topo g,
    YAML_LOADER W path a_file = Return (VMap tpl) /\
    self_tpl t = tpl /\ self_path t = path /\ self_a_file t = a_file /\
    self_parsed_params t = parsed_params /\
    res (_validate_field (loaded tpl path a_file parsed_params)) = Return tt /\
    self_version t = Some (VStr "tosca_simple_yaml_1_0") /\
    res (_get_custom_types W RELATIONSHIP_TYPES
           (loaded tpl path a_file parsed_params)) = Return r /\
    self_relationship_types t = Some r /\
    res (_get_all_custom_defs W (loaded tpl path a_file parsed_params))
    = Return agg /\
    TopologyTemplate_new W (PyDict.get TOPOLOGY_TEMPLATE tpl) agg r
      parsed_params = Return topo /\
    self_topology_template t = Some topo /\
    self_inputs t = Some (topology_inputs topo) /\
    self_relationship_templates t
    = Some (topology_relationship_templates topo) /\
    self_nodetemplates t = Some (topology_nodetemplates topo) /\
    self_outputs t = Some (topology_outputs topo) /\
    ToscaGraph_new W (topology_nodetemplates topo) = Return g /\
    self_graph t = Some g.
Proof.
  unfold __init__.
  destruct (YAML_LOADER W path a_file) as [[| | |tpl]|e]; cbn [fst];
    try discriminate.
  destruct (res (init_rest W (loaded tpl path a_file parsed_params)))
    as [[]|e] eqn:R; [|discriminate].
  intros Ht. injection Ht as <-.
  destruct (init_rest_returns _ _ _ R eq_refl eq_refl)
    as (r & desc & agg & topo & g & Hval & _ & Hr & _ & Hagg & Hnew & Hg
        & -> & _).
  exists tpl, r, agg, topo, g.
  repeat (split; [first [reflexivity | assumption]|]). reflexivity.
Qed.

End Construction_facts.

Lemma constructed_template_witness :
  exists tpl r agg topo g,
    YAML_LOADER Sample.more_world "a/topology.yaml" true = Return (VMap tpl) /\
    self_tpl Sample.topology_self = tpl /\
    res (_get_custom_types Sample.more_world RELATIONSHIP_TYPES
           Sample.topology_self) = Return r /\
    res (_get_all_custom_defs Sample.more_world Sample.topology_self)
    = Return agg /\
    TopologyTemplate_new Sample.more_world
      (PyDict.get TOPOLOGY_TEMPLATE tpl) agg r VNull = Return topo /\
    ToscaGraph_new Sample.more_world (topology_nodetemplates topo)
    = Return g.
Proof.
  assert (C : exists t,
             fst (__init__ Sample.more_world "a/topology.yaml" true VNull)
             = Return t)
    by (eexists; vm_compute; reflexivity).
  destruct C as [t Ht].
  destruct (constructed_template Sample.more_world "a/topology.yaml" true
              VNull t Ht)
    as (tpl & r & agg & topo & g & HL & _ & _ & _ & _ & _ & _ & Hr & _
        & Hagg & Hnew & _ & _ & _ & _ & _ & Hg & _).
  assert (E : tpl = Sample.tpl_topology)
    by (vm_compute in HL; injection HL as <-; reflexivity).
  subst tpl. exists Sample.tpl_topology, r, agg, topo, g.
  repeat (split; [first [reflexivity | assumption]|]). assumption.
Defined.

(** ** What a construction calls *)

Section Construction_calls.

Variable W : World.

Lemma merge_load_count ty s r :
  res (_get_custom_types W ty s) = Return r ->
  List.length (loads_of (log (_get_custom_types W ty s)))
  = List.length (imports_of (self_tpl s)).
Proof.
  intros H. destruct (merge_returns_for_in W ty s r H) as [cd Hcd].
  rewrite merge_loads.
  destruct (for_in_returns W _ ty s _ _ _ Hcd) as [F _].
  symmetry. exact (Forall2_length F).
Qed.

Lemma all_defs_body_run s ty acc :
  let body :=
    custom_def <- _get_custom_types W ty ;;
    if truthy (VMap custom_def)
    then lift (dict_update acc (VMap custom_def))
    else ret acc in
  obj (body s) = s /\
  log (body s) = log (_get_custom_types W ty s) /\
  (forall acc', res (body s) = Return acc' ->
                exists r, res (_get_custom_types W ty s) = Return r).
Proof.
  cbn zeta. unfold bind.
  rewrite (proj1 (reader_get_custom_types W ty) s).
  destruct (res (_get_custom_types W ty s)) as [r|e]; cbn [res obj log].
  - destruct r; cbn [truthy lift ret dict_update res obj log];
      rewrite app_nil_r; repeat split; eauto.
  - repeat split. discriminate.
Qed.

(** The aggregate, when it returns, is the four merges run one after the
    other on the same object. *)
Lemma all_custom_defs_returns s agg :
  res (_get_all_custom_defs W s) = Return agg ->
  log (_get_all_custom_defs W s)
  = log (_get_custom_types W NODE_TYPES s)
    ++ log (_get_custom_types W CAPABILITY_TYPES s)
    ++ log (_get_custom_types W RELATIONSHIP_TYPES s)
    ++ log (_get_custom_types W DATATYPE_DEFINITIONS s) /\
  (exists r, res (_get_custom_types W NODE_TYPES s) = Return r) /\
  (exists r, res (_get_custom_types W CAPABILITY_TYPES s) = Return r) /\
  (exists r, res (_get_custom_types W RELATIONSHIP_TYPES s) = Return r) /\
  (exists r, res (_get_custom_types W DATATYPE_DEFINITIONS s) = Return r).
Proof.
  unfold _get_all_custom_defs. cbn zeta. cbn [for_in]. intros H.
  unfold dict in *.
  destruct (bind_inv_log _ _ _ _ H) as (a1 & B1 & H1 & _ & L1).
  destruct (all_defs_body_run s NODE_TYPES []) as (O1 & G1 & R1).
  cbn zeta in O1, G1, R1. unfold dict in *.
  rewrite L1, G1. rewrite O1 in H1 |- *.
  destruct (bind_inv_log _ _ _ _ H1) as (a2 & B2 & H2 & _ & L2).
  destruct (all_defs_body_run s CAPABILITY_TYPES a1) as (O2 & G2 & R2).
  cbn zeta in O2, G2, R2. unfold dict in *.
  rewrite L2, G2. rewrite O2 in H2 |- *.
  destruct (bind_inv_log _ _ _ _ H2) as (a3 & B3 & H3 & _ & L3).
  destruct (all_defs_body_run s RELATIONSHIP_TYPES a2) as (O3 & G3 & R3).
  cbn zeta in O3, G3, R3. unfold dict in *.
  rewrite L3, G3. rewrite O3 in H3 |- *.
  destruct (bind_inv_log _ _ _ _ H3) as (a4 & B4 & _ & _ & L4).
  destruct (all_defs_body_run s DATATYPE_DEFINITIONS a3) as (O4 & G4 & R4).
  cbn zeta in O4, G4, R4. unfold dict in *.
  rewrite L4, G4. rewrite O4.
  cbn [ret log]. rewrite app_nil_r.
  split; [reflexivity|].
  split; [exact (R1 _ B1)|]. split; [exact (R2 _ B2)|].
  split; [exact (R3 _ B3)|exact (R4 _ B4)].
Qed.

(** X11.  A construction that returns has made these calls, in this order:
    the load of the root document; those of the relationship-type merge;
    those of the node-type, capability-type, relationship-type and
    datatype merges of the aggregate registry; [TopologyTemplate]; and
    [ToscaGraph].  Nothing is kept from one merge to the next: with [n]
    imports, a construction loads [1 + 5 * n] documents. *)
Theorem construction_calls path a_file parsed_params t :
  fst (__init__ W path a_file parsed_params) = Return t ->
  exists tpl,
    YAML_LOADER W path a_file = Return (VMap tpl) /\
    let s := loaded tpl path a_file parsed_params in
    snd (__init__ W path a_file parsed_params)
    = Call_YAML_LOADER path a_file
      :: log (_get_custom_types W RELATIONSHIP_TYPES s)
      ++ (log (_get_custom_types W NODE_TYPES s)
          ++ log (_get_custom_types W CAPABILITY_TYPES s)
          ++ log (_get_custom_types W RELATIONSHIP_TYPES s)
          ++ log (_get_custom_types W DATATYPE_DEFINITIONS s))
      ++ [Call_TopologyTemplate; Call_ToscaGraph] /\
    List.length (loads_of (snd (__init__ W path a_file parsed_params)))
    = 1 + 5 * List.length (imports_of tpl).
Proof.
  unfold __init__.
  destruct (YAML_LOADER W path a_file) as [[| | |tpl]|e]; cbn [fst snd];
    try discriminate.
  destruct (res (init_rest W (loaded tpl path a_file parsed_params)))
    as [[]|e] eqn:R; [|discriminate].
  intros _. exists tpl. split; [reflexivity|]. cbn zeta.
  destruct (init_rest_returns W _ _ _ R eq_refl eq_refl)
    as (r & desc & agg & topo & g & _ & _ & Hr & _ & Hagg & _ & _ & _ & L).
  destruct (all_custom_defs_returns _ _ Hagg)
    as (La & [rn Hn] & [rc Hc] & [rr Hrr] & [rd Hd]).
  unfold _tpl_relationship_types in L. rewrite L, La.
  split; [reflexivity|].
  cbn [loads_of List.length]. rewrite !loads_of_app, !length_app.
  rewrite (merge_load_count _ _ _ Hn), (merge_load_count _ _ _ Hc),
    (merge_load_count _ _ _ Hrr), (merge_load_count _ _ _ Hd).
  cbn [loads_of List.length self_tpl loaded]. lia.
Qed.

End Construction_calls.

Lemma construction_calls_witness :
  exists tpl,
    YAML_LOADER Sample.more_world "a/topology.yaml" true = Return (VMap tpl) /\
    List.length
      (loads_of (snd (__init__ Sample.more_world "a/topology.yaml" true
                        VNull)))
    = 1 + 5 * List.length (imports_of tpl).
Proof.
  assert (C : exists t,
             fst (__init__ Sample.more_world "a/topology.yaml" true VNull)
             = Return t)
    by (eexists; vm_compute; reflexivity).
  destruct C as [t Ht].
  destruct (construction_calls Sample.more_world "a/topology.yaml" true
              VNull t Ht) as (tpl & HL & _ & Hn).
  exists tpl. split; assumption.
Defined.

(** ** What construction requires, and the order of its failures *)

Ltac bind_returns_log H :=
  match goal with
  | |- context [res (bind ?m ?f ?s)] =>
      let R := fresh in
      let L := fresh in
      destruct (bind_Return m f s _ H) as (R & _ & L);
      rewrite R, L; clear R L; cbv beta
  end.

Ltac bind_raises_log H :=
  match goal with
  | |- context [res (bind ?m ?f ?s)] =>
      let R := fresh in
      let L := fresh in
      destruct (bind_Raise m f s _ H) as (R & _ & L);
      rewrite R, L; clear R L
  end.

Section Construction_failures.

Variable W : World.

Lemma validate_field_log s : log (_validate_field s) = [].
Proof. rewrite validate_field_run. reflexivity. Qed.

Lemma tpl_version_log s : log (_tpl_version s) = [].
Proof. rewrite tpl_version_run. reflexivity. Qed.

Lemma load_import_log_no_builder main d s :
  Forall (fun c => c <> Call_TopologyTemplate /\ c <> Call_ToscaGraph)
    (log (load_import W main d s)).
Proof.
  rewrite load_import_run. destruct main.
  - rewrite resolve_import_local. cbn zeta.
    destruct (os_path_isfile W d); cbn [res log app].
    + repeat constructor; discriminate.
    + destruct (os_path_isfile W
                  (os_path_join
                     (os_path_dirname (os_path_abspath W (self_path s))) d));
        cbn [log app]; repeat constructor; discriminate.
  - rewrite resolve_import_remote.
    destruct (validate_url W d); cbn [res log app].
    + repeat constructor; discriminate.
    + destruct (os_path_isabs d); cbn [res log app];
        [repeat constructor; discriminate|].
      destruct (join_url W (self_path s) d); cbn [res log app];
        repeat constructor; discriminate.
Qed.

Lemma init_rest_validation_raises s e :
  res (_validate_field s) = Raise e ->
  res (init_rest W s) = Raise e /\ log (init_rest W s) = [].
Proof.
  intros HV. unfold init_rest. bind_raises_log HV.
  rewrite validate_field_log. split; reflexivity.
Qed.

Opaque bind.

Lemma init_rest_merge_raises s e :
  res (_validate_field s) = Return tt ->
  res (_get_custom_types W RELATIONSHIP_TYPES s) = Raise e ->
  res (init_rest W s) = Raise e /\
  log (init_rest W s) = log (_get_custom_types W RELATIONSHIP_TYPES s).
Proof.
  intros HV HM. destruct (validated_version s HV) as [v Hv].
  destruct (proj2 (reader_get_custom_types W RELATIONSHIP_TYPES)
              (with_version v s) s (conj eq_refl eq_refl)) as [Er El].
  rewrite HM in Er.
  unfold init_rest.
  bind_returns_log HV.
  rewrite keeps_validate_field, validate_field_log.
  bind_returns_log Hv.
  rewrite keeps_tpl_version, tpl_version_log.
  bind_returns_log (eq_refl : res (set_self (with_version v) s) = Return tt).
  cbn [set_self obj log].
  unfold _tpl_relationship_types.
  bind_raises_log Er.
  rewrite El. split; reflexivity.
Qed.

Lemma init_rest_description_raises s r e :
  res (_validate_field s) = Return tt ->
  res (_get_custom_types W RELATIONSHIP_TYPES s) = Return r ->
  res (_tpl_description s) = Raise e ->
  res (init_rest W s) = Raise e /\
  log (init_rest W s) = log (_get_custom_types W RELATIONSHIP_TYPES s).
Proof.
  intros HV HM HD. destruct (validated_version s HV) as [v Hv].
  destruct (proj2 (reader_get_custom_types W RELATIONSHIP_TYPES)
              (with_version v s) s (conj eq_refl eq_refl)) as [Er El].
  rewrite HM in Er.
  assert (D : res (_tpl_description
                     (with_relationship_types r (with_version v s)))
              = Raise e).
  { rewrite tpl_description_run in *. exact HD. }
  assert (DL : log (_tpl_description
                      (with_relationship_types r (with_version v s))) = []).
  { rewrite tpl_description_run. reflexivity. }
  unfold init_rest.
  bind_returns_log HV.
  rewrite keeps_validate_field, validate_field_log.
  bind_returns_log Hv.
  rewrite keeps_tpl_version, tpl_version_log.
  bind_returns_log (eq_refl : res (set_self (with_version v) s) = Return tt).
  cbn [set_self obj log].
  unfold _tpl_relationship_types.
  bind_returns_log Er.
  rewrite (proj1 (reader_get_custom_types W RELATIONSHIP_TYPES)
             (with_version v s)).
  bind_returns_log (eq_refl : res (set_self (with_relationship_types r)
                                     (with_version v s)) = Return tt).
  cbn [set_self obj log].
  bind_raises_log D.
  rewrite DL, El, app_nil_r. split; reflexivity.
Qed.

Transparent bind.

(** X12.  Construction returns only for a document whose version key
    holds the accepted literal, whose top-level keys are all schema keys,
    and whose [description] key holds a string; the constructed template's
    description is that string without its trailing whitespace. *)
Theorem construction_requires path a_file parsed_params t :
  fst (__init__ W path a_file parsed_params) = Return t ->
  exists tpl d,
    YAML_LOADER W path a_file = Return (VMap tpl) /\
    PyDict.lookup DEFINITION_VERSION tpl
    = Some (VStr "tosca_simple_yaml_1_0") /\
    Forall (fun k => str_in k SECTIONS = true) (PyDict.keys tpl) /\
    PyDict.lookup DESCRIPTION tpl = Some (VStr d) /\
    self_description t = Some (rstrip d).
Proof.
  unfold __init__.
  destruct (YAML_LOADER W path a_file) as [[| | |tpl]|e]; cbn [fst];
    try discriminate.
  destruct (res (init_rest W (loaded tpl path a_file parsed_params)))
    as [[]|e] eqn:R; [|discriminate].
  intros Ht. injection Ht as <-.
  destruct (init_rest_returns W _ _ _ R eq_refl eq_refl)
    as (r & desc & agg & topo & g & HV & _ & _ & HD & _ & _ & _ & F & _).
  rewrite validate_field_run in HV. rewrite tpl_description_run in HD.
  cbn [res self_tpl loaded] in HV, HD.
  destruct (PyDict.lookup DESCRIPTION tpl) as [[|d|l|m]|] eqn:D;
    try discriminate.
  injection HD as <-. exists tpl, d.
  split; [reflexivity|].
  destruct (PyDict.lookup DEFINITION_VERSION tpl) as [v|] eqn:DV;
    [|discriminate].
  destruct (value_in v VALID_TEMPLATE_VERSIONS) eqn:V; [|discriminate].
  apply valid_version_literal in V. subst v.
  destruct (first_unknown (PyDict.keys tpl)) eqn:U; [discriminate|].
  split; [reflexivity|].
  split; [now apply first_unknown_Forall|].
  split; [exact D|].
  rewrite F. reflexivity.
Qed.

(** X13.  A document that field validation rejects is rejected before
    anything else is touched: construction raises the validation error,
    and the load of the root document is its only call -- no import is
    looked up, resolved or loaded. *)
Theorem rejected_document_loads_nothing path a_file parsed_params tpl e :
  YAML_LOADER W path a_file = Return (VMap tpl) ->
  res (_validate_field (loaded tpl path a_file parsed_params)) = Raise e ->
  __init__ W path a_file parsed_params
  = (Raise e, [Call_YAML_LOADER path a_file]).
Proof.
  intros HL HV. unfold __init__. rewrite HL. cbv beta iota zeta.
  destruct (init_rest_validation_raises _ _ HV) as [R L].
  rewrite R, L. reflexivity.
Qed.

(** X14.  When the relationship-type merge of a valid document raises,
    construction raises the same error, whatever the [description] key
    holds, and has called nothing but the root load and what the merge
    called: neither [TopologyTemplate] nor [ToscaGraph]. *)
Theorem import_failure_aborts_construction path a_file parsed_params tpl e :
  YAML_LOADER W path a_file = Return (VMap tpl) ->
  res (_validate_field (loaded tpl path a_file parsed_params)) = Return tt ->
  res (_get_custom_types W RELATIONSHIP_TYPES
         (loaded tpl path a_file parsed_params)) = Raise e ->
  __init__ W path a_file parsed_params
  = (Raise e,
     Call_YAML_LOADER path a_file
     :: log (_get_custom_types W RELATIONSHIP_TYPES
               (loaded tpl path a_file parsed_params))) /\
  ~ In Call_TopologyTemplate (snd (__init__ W path a_file parsed_params)) /\
  ~ In Call_ToscaGraph (snd (__init__ W path a_file parsed_params)).
Proof.
  intros HL HV HM.
  assert (E : __init__ W path a_file parsed_params
              = (Raise e,
                 Call_YAML_LOADER path a_file
                 :: log (_get_custom_types W RELATIONSHIP_TYPES
                           (loaded tpl path a_file parsed_params)))).
  { unfold __init__. rewrite HL. cbv beta iota zeta.
    destruct (init_rest_merge_raises _ _ HV HM) as [R L].
    rewrite R, L. reflexivity. }
  split; [exact E|]. rewrite E. cbn [snd].
  assert (F : Forall (fun c => c <> Call_TopologyTemplate /\
                               c <> Call_ToscaGraph)
                (log (_get_custom_types W RELATIONSHIP_TYPES
                        (loaded tpl path a_file parsed_params)))).
  { apply merge_log_Forall; [split; discriminate|].
    intros d. apply load_import_log_no_builder. }
  rewrite Forall_forall in F.
  split; intros [H|H]; try discriminate; apply F in H; destruct H; congruence.
Qed.

(** X15.  A valid document whose [description] key holds something that
    is no string -- a key without a value, a list, a mapping -- makes
    construction raise [AttributeError], once its imports have been loaded
    for the relationship-type merge; nothing is called after that
    merge. *)
Theorem description_not_a_string path a_file parsed_params tpl v r :
  YAML_LOADER W path a_file = Return (VMap tpl) ->
  res (_validate_field (loaded tpl path a_file parsed_params)) = Return tt ->
  res (_get_custom_types W RELATIONSHIP_TYPES
         (loaded tpl path a_file parsed_params)) = Return r ->
  PyDict.lookup DESCRIPTION tpl = Some v ->
  (forall d, v <> VStr d) ->
  __init__ W path a_file parsed_params
  = (Raise AttributeError,
     Call_YAML_LOADER path a_file
     :: log (_get_custom_types W RELATIONSHIP_TYPES
               (loaded tpl path a_file parsed_params))).
Proof.
  intros HL HV HM HD Hv.
  assert (D : res (_tpl_description (loaded tpl path a_file parsed_params))
              = Raise AttributeError).
  { rewrite tpl_description_run. cbn [res self_tpl loaded]. rewrite HD.
    destruct v as [|d|l|m]; try reflexivity. now destruct (Hv d). }
  unfold __init__. rewrite HL. cbv beta iota zeta.
  destruct (init_rest_description_raises _ _ _ HV HM D) as [R L].
  rewrite R, L. reflexivity.
Qed.

End Construction_failures.

Lemma construction_requires_witness :
  exists tpl d,
    YAML_LOADER Sample.more_world "a/topology.yaml" true = Return (VMap tpl) /\
    PyDict.lookup DESCRIPTION tpl = Some (VStr d).
Proof.
  assert (C : exists t,
             fst (__init__ Sample.more_world "a/topology.yaml" true VNull)
             = Return t)
    by (eexists; vm_compute; reflexivity).
  destruct C as [t Ht].
  destruct (construction_requires Sample.more_world "a/topology.yaml" true
              VNull t Ht) as (tpl & d & HL & _ & _ & HD & _).
  exists tpl, d. split; assumption.
Defined.

Lemma rejected_document_loads_nothing_witness :
  __init__ Sample.more_world "a/invalid.yaml" true VNull
  = (Raise (UnknownFieldError "Template" "foo"),
     [Call_YAML_LOADER "a/invalid.yaml" true]).
Proof.
  exact (rejected_document_loads_nothing Sample.more_world "a/invalid.yaml"
           true VNull Sample.tpl_invalid_imports
           (UnknownFieldError "Template" "foo") eq_refl eq_refl).
Defined.

Lemma import_failure_aborts_construction_witness :
  fst (__init__ Sample.more_world "a/missing.yaml" true VNull)
  = Raise (ExternalError "gone.yaml").
Proof.
  exact (f_equal fst
           (proj1 (import_failure_aborts_construction Sample.more_world
                     "a/missing.yaml" true VNull Sample.tpl_missing_import
                     (ExternalError "gone.yaml") eq_refl eq_refl eq_refl))).
Defined.

Lemma description_not_a_string_witness :
  __init__ Sample.more_world "a/null.yaml" true VNull
  = (Raise AttributeError, [Call_YAML_LOADER "a/null.yaml" true]).
Proof.
  refine (description_not_a_string Sample.more_world "a/null.yaml" true
            VNull Sample.tpl_null_description VNull [] eq_refl eq_refl
            eq_refl eq_refl _).
  intros d H. discriminate H.
Defined.
